(** * The healthy-eating API proxy ([server.py]) as a Rocq model

    [server.py] is a small [http.server] handler: it validates two kinds of
    POST request, forwards a payload to the Anthropic messages endpoint
    with [urllib], and relays the JSON verdict or an error object.

    The model follows the source function by function.  Python values
    produced by [json.loads] are an inductive type; every effect of a
    handler (printing, reading the request stream, calling the upstream
    endpoint, writing the response) is an event of a trace; exceptions are
    an error result threaded by a small monad.  What the Python standard
    library computes (JSON parsing, UTF-8 decoding, [int], [str.strip],
    [repr], reading a stream) is an interface, [PyLib], with a reference
    instance at the end of the definitions. *)

From Stdlib Require Import String Ascii ZArith List Lia Bool DecimalString Floats.
Import ListNotations.
Open Scope string_scope.
Open Scope Z_scope.
Set Warnings "-register-all".

(** ** Python values *)

(** Python [bytes].  A Python [str] is represented by its UTF-8 encoding,
    so that [s.encode("utf-8")] is the identity and [b.decode("utf-8")] is
    a partial identity. *)
Definition bytes := string.

(** The values [json.loads] can return.  A [dict] keeps its insertion order
    and is an association list. *)
Inductive value : Type :=
| PyNone
| PyBool (b : bool)
| PyInt (n : Z)
| PyFloat (f : float)
| PyStr (s : string)
| PyList (l : list value)
| PyDict (d : list (string * value)).

(** [type(v).__name__] *)
Definition type_name (v : value) : string :=
  match v with
  | PyNone => "NoneType"
  | PyBool _ => "bool"
  | PyInt _ => "int"
  | PyFloat _ => "float"
  | PyStr _ => "str"
  | PyList _ => "list"
  | PyDict _ => "dict"
  end.

(** [bool(v)], as [not v] uses it. *)
Definition truthy (v : value) : bool :=
  match v with
  | PyNone => false
  | PyBool b => b
  | PyInt n => negb (n =? 0)
  | PyFloat f => negb (PrimFloat.eqb f 0%float)
  | PyStr s => negb (s =? "")%string
  | PyList l => match l with [] => false | _ => true end
  | PyDict d => match d with [] => false | _ => true end
  end.

Definition dq : string := String "034"%char EmptyString.
Definition sq : string := "'".

Definition string_of_Z (z : Z) : string := NilZero.string_of_int (Z.to_int z).

(** ** Exceptions *)

(** Where [json.loads] stopped: the fields of [json.JSONDecodeError]. *)
Record decode_error : Type := mkDecodeError
  { err_msg : string; err_lineno : Z; err_colno : Z; err_pos : Z }.

(** The exceptions the handlers can meet, all subclasses of [Exception].
    [HTTPError code reason body] is what [urlopen] raises for a response
    outside 2xx: [e.code], [e.reason] and the bytes of [e.read()].
    [PyException arg] is [Exception(arg)]. *)
Inductive exn : Type :=
| AttributeError (ty attr : string)
| TypeError (msg : string)
| IndexError (msg : string)
| KeyError (key : value)
| ValueError (msg : string)
| UnicodeDecodeError (msg : string)
| JSONDecodeError (d : decode_error)
| FileNotFoundError (msg : string)
| URLError (reason : string)
| HTTPError (code : Z) (reason : string) (body : bytes)
| PyException (arg : value).

(** The classes named by the [except] clauses of the source. *)
Definition is_JSONDecodeError (e : exn) : bool :=
  match e with JSONDecodeError _ => true | _ => false end.

Definition is_HTTPError (e : exn) : bool :=
  match e with HTTPError _ _ _ => true | _ => false end.

Definition is_FileNotFoundError (e : exn) : bool :=
  match e with FileNotFoundError _ => true | _ => false end.

Definition is_Exception (e : exn) : bool := true.

(** ** The trace monad *)

(** The body handed to [json.dumps(...).encode("utf-8")] is kept as the
    value that is serialised; other bytes are kept as they are. *)
Inductive wire : Type :=
| Raw (b : bytes)
| JsonDumps (v : value).

(** A [urllib.request.Request]. *)
Record http_request : Type := mkRequest
  { url : string;
    data : wire;
    req_headers : list (string * string);
    method : string }.

Inductive event : Type :=
| EvPrint (s : string)
| EvRfileRead (n : Z)
| EvUrlopen (r : http_request)
| EvSendResponse (code : Z)
| EvSendHeader (k v : string)
| EvEndHeaders
| EvWfileWrite (b : wire).

Definition trace := list event.

(** A computation: the events it performed, and an exception or a result. *)
Definition M (A : Type) : Type := trace * (exn + A).

Definition ret {A} (a : A) : M A := ([], inr a).

Definition raise {A} (e : exn) : M A := ([], inl e).

Definition bind {A B} (m : M A) (k : A -> M B) : M B :=
  match m with
  | (t, inl e) => (t, inl e)
  | (t, inr a) => let (t', r) := k a in ((t ++ t')%list, r)
  end.

Definition emit (ev : event) : M unit := ([ev], inr tt).

Definition lift {A} (r : exn + A) : M A := ([], r).

(** [try: m except <class selected by catches> as e: h e] *)
Definition try_except {A} (m : M A) (catches : exn -> bool) (h : exn -> M A) : M A :=
  match m with
  | (t, inl e) => if catches e then let (t', r) := h e in ((t ++ t')%list, r) else (t, inl e)
  | (t, inr a) => (t, inr a)
  end.

Declare Scope py_scope.
Delimit Scope py_scope with py.
Notation "x <- m ;; k" := (bind m (fun x => k))
  (at level 61, m at next level, right associativity) : py_scope.
Notation "m ;; k" := (bind m (fun _ => k))
  (at level 61, right associativity) : py_scope.
Open Scope py_scope.

(** ** The Python standard library, as an interface *)

(** The library functions the program calls and whose result depends on
    more than the shape of a value.  Each returns an exception or a
    result. *)
Class PyLib : Type :=
  { (** [json.loads(s)] for a [str] *)
    json_loads : string -> exn + value;
    (** [b.decode("utf-8")] *)
    utf8_decode : bytes -> exn + string;
    (** [int(s)] for a [str] *)
    py_int : string -> exn + Z;
    (** [s.strip()] *)
    str_strip : string -> string;
    (** [repr(v)] *)
    lib_repr : value -> string;
    (** [f.read(n)] on a binary stream that holds the given bytes *)
    stream_read : bytes -> Z -> exn + bytes;
    (** stripping the empty string leaves it empty *)
    str_strip_empty : str_strip "" = "";
    (** the empty document is not JSON: [json.loads("")] raises
        [JSONDecodeError] *)
    json_loads_empty : exists d, json_loads "" = inl (JSONDecodeError d) }.

Section Program.

Context {lib : PyLib}.

(** [repr(v)]; the cases with a fixed spelling are written out. *)
Definition py_repr (v : value) : string :=
  match v with
  | PyNone => "None"
  | PyBool true => "True"
  | PyBool false => "False"
  | PyInt n => string_of_Z n
  | _ => lib_repr v
  end.

(** [str(v)], which is also what [f"{v}"] inserts. *)
Definition py_str (v : value) : string :=
  match v with
  | PyStr s => s
  | _ => py_repr v
  end.

(** [str(e)] *)
Definition exn_str (e : exn) : string :=
  match e with
  | AttributeError ty attr =>
      sq ++ ty ++ "' object has no attribute '" ++ attr ++ sq
  | TypeError msg => msg
  | IndexError msg => msg
  | KeyError key => py_repr key
  | ValueError msg => msg
  | UnicodeDecodeError msg => msg
  | JSONDecodeError d =>
      err_msg d ++ ": line " ++ string_of_Z (err_lineno d)
        ++ " column " ++ string_of_Z (err_colno d)
        ++ " (char " ++ string_of_Z (err_pos d) ++ ")"
  | FileNotFoundError msg => msg
  | URLError reason => "<urlopen error " ++ reason ++ ">"
  | HTTPError code reason _ =>
      "HTTP Error " ++ string_of_Z code ++ ": " ++ reason
  | PyException arg => py_str arg
  end.

(** *** Operations on values *)

(** [key in d] and [d[key]] at once. *)
Fixpoint dict_lookup (d : list (string * value)) (key : string) : option value :=
  match d with
  | [] => None
  | (k, v) :: d' => if (k =? key)%string then Some v else dict_lookup d' key
  end.

(** [d.get(key, default)] *)
Definition dict_get (d : list (string * value)) (key : string) (default : value)
  : value :=
  match dict_lookup d key with
  | Some v => v
  | None => default
  end.

(** [v.get(key, default)] *)
Definition py_get (v : value) (key : string) (default : value) : M value :=
  match v with
  | PyDict d => ret (dict_get d key default)
  | _ => raise (AttributeError (type_name v) "get")
  end.

(** Number of bytes of the UTF-8 sequence that starts with byte [c]. *)
Definition utf8_width (c : ascii) : nat :=
  let n := nat_of_ascii c in
  if (n <? 192)%nat then 1%nat
  else if (n <? 224)%nat then 2%nat
  else if (n <? 240)%nat then 3%nat else 4%nat.

(** [v[0]].  The keys of a [dict] from [json.loads] are [str], so [0] is
    never one of them. *)
Definition py_getitem0 (v : value) : M value :=
  match v with
  | PyList [] => raise (IndexError "list index out of range")
  | PyList (x :: _) => ret x
  | PyStr EmptyString => raise (IndexError "string index out of range")
  | PyStr (String c s) => ret (PyStr (substring 0 (utf8_width c) (String c s)))
  | PyDict _ => raise (KeyError (PyInt 0))
  | _ => raise (TypeError (sq ++ type_name v ++ "' object is not subscriptable"))
  end.

(** [v.strip()] *)
Definition py_strip (v : value) : M string :=
  match v with
  | PyStr s => ret (str_strip s)
  | _ => raise (AttributeError (type_name v) "strip")
  end.

(** [json.loads(v)] *)
Definition py_json_loads (v : value) : M value :=
  match v with
  | PyStr s => lift (json_loads s)
  | _ => raise (TypeError ("the JSON object must be str, bytes or bytearray, not "
                             ++ type_name v))
  end.

(** [v in types] for a set of [str]: the value is hashed first. *)
Definition py_in (v : value) (types : list string) : M bool :=
  match v with
  | PyStr s => ret (existsb (String.eqb s) types)
  | PyList _ | PyDict _ =>
      raise (TypeError ("unhashable type: '" ++ type_name v ++ sq))
  | _ => ret false
  end.

(** [print(s)] *)
Definition print (s : string) : M unit := emit (EvPrint s).

(** *** Module constants *)

Definition ANTHROPIC_API_URL : string := "https://api.anthropic.com/v1/messages".
Definition MODEL : string := "claude-sonnet-4-20250514".

Definition SYSTEM_PROMPT : string :=
  "You are a friendly, supportive nutrition advisor embedded in a healthy eating app. The user will tell you a food they're thinking of eating. Analyse it and respond with ONLY valid JSON (no markdown, no code fences) in this exact format:

{
  "
  ++ dq ++ "food"
  ++ dq ++ ": "
  ++ dq ++ "<the food name, cleaned up>"
  ++ dq ++ ",
  "
  ++ dq ++ "rating"
  ++ dq ++ ": <number 1-10>,
  "
  ++ dq ++ "portion"
  ++ dq ++ ": "
  ++ dq ++ "<recommended portion in everyday visual terms, e.g. 'about the size of your fist', 'a deck of cards worth'>"
  ++ dq ++ ",
  "
  ++ dq ++ "calories"
  ++ dq ++ ": "
  ++ dq ++ "<calorie estimate for that portion, e.g. '~350 calories'>"
  ++ dq ++ ",
  "
  ++ dq ++ "explanation"
  ++ dq ++ ": "
  ++ dq ++ "<2-3 sentences explaining the rating in a casual, supportive tone. Never shame. Be encouraging.>"
  ++ dq ++ ",
  "
  ++ dq ++ "alternative"
  ++ dq ++ ": "
  ++ dq ++ "<if rating < 6, suggest a healthier swap in 1 sentence. If rating >= 6, set to null>"
  ++ dq ++ "
}

Guidelines:
- Be encouraging and positive, never judgmental
- Use everyday language, not clinical terms
- Portion sizes should use visual comparisons (fist, palm, deck of cards, tennis ball, etc.)
- Calorie estimates should be approximate and use the ~ symbol
- For healthy foods (7+), celebrate the choice
- For moderate foods (4-6), acknowledge it's okay and gently suggest improvements
- For less healthy foods (1-3), be kind — suggest it as an occasional treat and offer a swap
- The alternative field should be null (not a string "
  ++ dq ++ "null"
  ++ dq ++ ") when rating >= 6".

Definition IMAGE_SYSTEM_PROMPT : string :=
  "You are a friendly, supportive nutrition advisor embedded in a healthy eating app. The user has sent a PHOTO of food. Your job is to:

1. Identify the food in the image
2. Estimate the ACTUAL portion size visible in the photo (use visual cues like plate size, utensils, hands, or common dish sizes to judge)
3. Calculate calories and macros based on THAT specific portion — not a generic serving

Respond with ONLY valid JSON (no markdown, no code fences) in this exact format:

{
  "
  ++ dq ++ "food"
  ++ dq ++ ": "
  ++ dq ++ "<the food name, cleaned up>"
  ++ dq ++ ",
  "
  ++ dq ++ "rating"
  ++ dq ++ ": <number 1-10>,
  "
  ++ dq ++ "portion"
  ++ dq ++ ": "
  ++ dq ++ "<your estimate of the actual portion shown, e.g. 'about 1.5 cups / a large bowlful', 'roughly 200g / palm-sized piece'>"
  ++ dq ++ ",
  "
  ++ dq ++ "calories"
  ++ dq ++ ": "
  ++ dq ++ "<calorie estimate for the portion SHOWN in the photo, e.g. '~450 calories'>"
  ++ dq ++ ",
  "
  ++ dq ++ "protein"
  ++ dq ++ ": "
  ++ dq ++ "<estimated protein in grams, e.g. '~25g'>"
  ++ dq ++ ",
  "
  ++ dq ++ "carbs"
  ++ dq ++ ": "
  ++ dq ++ "<estimated carbs in grams, e.g. '~40g'>"
  ++ dq ++ ",
  "
  ++ dq ++ "fat"
  ++ dq ++ ": "
  ++ dq ++ "<estimated fat in grams, e.g. '~18g'>"
  ++ dq ++ ",
  "
  ++ dq ++ "explanation"
  ++ dq ++ ": "
  ++ dq ++ "<2-3 sentences explaining the rating AND how you estimated the portion from the photo. Be casual and supportive. Never shame.>"
  ++ dq ++ ",
  "
  ++ dq ++ "alternative"
  ++ dq ++ ": "
  ++ dq ++ "<if rating < 6, suggest a healthier swap in 1 sentence. If rating >= 6, set to null>"
  ++ dq ++ "
}

Guidelines:
- Be encouraging and positive, never judgmental
- Use everyday language, not clinical terms
- CAREFULLY estimate the portion visible in the photo — look at plate/bowl size, compare to utensils, hands, or standard dish dimensions
- Give a specific calorie number based on what you SEE, not a generic serving
- Include protein, carbs, and fat estimates for the visible portion
- For healthy foods (7+), celebrate the choice
- For moderate foods (4-6), acknowledge it's okay and gently suggest improvements
- For less healthy foods (1-3), be kind — suggest it as an occasional treat and offer a swap
- The alternative field should be null (not a string "
  ++ dq ++ "null"
  ++ dq ++ ") when rating >= 6".

Definition VALID_IMAGE_TYPES : list string :=
  ["image/jpeg"; "image/png"; "image/gif"; "image/webp"].
Definition MAX_BODY_SIZE : Z := 10000000.

(** What the process reads from outside at start-up or at run time: the API
    key, the upstream endpoint's answer to a request, and [index.html]
    when the file exists. *)
Record world : Type := mkWorld
  { API_KEY : string;
    urlopen : http_request -> exn + bytes;
    index_html : option string }.

(** An inbound request as the handler object sees it: [self.path],
    [self.requestline], [self.headers.get("Content-Length")] and the bytes
    that [self.rfile] delivers. *)
Record request : Type := mkReq
  { path : string;
    requestline : string;
    content_length : option string;
    rfile : bytes }.

Variable w : world.

(** *** The upstream client *)

(** The [urllib.request.Request] that [_send_to_anthropic] builds. *)
Definition Request (payload_dict : value) : http_request :=
  let payload := JsonDumps payload_dict in
  {| url := ANTHROPIC_API_URL;
     data := payload;
     req_headers := [("Content-Type", "application/json");
                     ("x-api-key", API_KEY w);
                     ("anthropic-version", "2023-06-01")];
     method := "POST" |}.

(** [data.get("content", [{}])[0].get("text", "")] *)
Definition first_text (data : value) : M value :=
  content <- py_get data "content" (PyList [PyDict []]) ;;
  block <- py_getitem0 content ;;
  py_get block "text" (PyStr "").

Definition _send_to_anthropic (payload_dict : value) : M value :=
  let req := Request payload_dict in
  try_except
    (emit (EvUrlopen req) ;;
     raw <- lift (urlopen w req) ;;
     s <- lift (utf8_decode raw) ;;
     data <- lift (json_loads s) ;;
     text <- first_text data ;;
     py_json_loads text)
    is_HTTPError
    (fun e =>
       match e with
       | HTTPError code _ raw =>
           body <- lift (utf8_decode raw) ;;
           msg <- try_except
                    (err <- lift (json_loads body) ;;
                     error <- py_get err "error" (PyDict []) ;;
                     py_get error "message"
                       (PyStr ("API error: " ++ string_of_Z code)))
                    is_JSONDecodeError
                    (fun _ => ret (PyStr ("API error: " ++ string_of_Z code))) ;;
           raise (PyException msg)
       | _ => raise e
       end).

(** The dict literal that [call_anthropic] passes on. *)
Definition text_payload (food : string) : value :=
  PyDict [("model", PyStr MODEL);
          ("max_tokens", PyInt 500);
          ("system", PyStr SYSTEM_PROMPT);
          ("messages",
           PyList [PyDict [("role", PyStr "user");
                           ("content", PyStr ("Analyse this food: " ++ food))]])].

Definition call_anthropic (food : string) : M value :=
  _send_to_anthropic (text_payload food).

(** The text part of the image message, a literal in the source. *)
Definition image_question : string :=
  "What food is in this photo? Estimate the actual portion size you can see and calculate the calories and macros for that specific amount.".

(** The dict literal that [call_anthropic_image] passes on.  The handler
    hands over the two values as it took them from the request body. *)
Definition image_payload (image_base64 media_type : value) : value :=
    (PyDict [("model", PyStr MODEL);
             ("max_tokens", PyInt 1000);
             ("system", PyStr IMAGE_SYSTEM_PROMPT);
             ("messages",
              PyList [PyDict
                [("role", PyStr "user");
                 ("content",
                  PyList
                    [PyDict [("type", PyStr "image");
                             ("source",
                              PyDict [("type", PyStr "base64");
                                      ("media_type", media_type);
                                      ("data", image_base64)])];
                     PyDict [("type", PyStr "text");
                             ("text", PyStr image_question)]])]])]).

Definition call_anthropic_image (image_base64 media_type : value) : M value :=
  _send_to_anthropic (image_payload image_base64 media_type).

(** *** [RequestHandler] *)

Variable self : request.

(** The primitives of [BaseHTTPRequestHandler] that the handlers call.
    [send_response] first logs the request through [log_message] with the
    request line as first argument; the [Server] and [Date] headers it adds
    on its own are not part of the trace. *)
Definition log_message (args0 : string) : M unit := print ("  " ++ args0).

Definition send_response (code : Z) : M unit :=
  log_message (requestline self) ;;
  emit (EvSendResponse code).

Definition send_header (k v : string) : M unit := emit (EvSendHeader k v).

Definition end_headers : M unit := emit EvEndHeaders.

Definition wfile_write (b : wire) : M unit := emit (EvWfileWrite b).

(** [self.rfile.read(n)] *)
Definition rfile_read (n : Z) : M bytes :=
  emit (EvRfileRead n) ;;
  lift (stream_read (rfile self) n).

(** [int(self.headers.get("Content-Length", 0))] *)
Definition headers_content_length : M Z :=
  match content_length self with
  | Some s => lift (py_int s)
  | None => ret 0
  end.

(** [open(filepath, "r", encoding="utf-8")] and [f.read()] for [index.html] *)
Definition read_index_html : M string :=
  match index_html w with
  | Some html => ret html
  | None => raise (FileNotFoundError "[Errno 2] No such file or directory: 'index.html'")
  end.

Definition send_cors_headers : M unit :=
  send_header "Access-Control-Allow-Origin" "*" ;;
  send_header "Access-Control-Allow-Methods" "POST, GET, OPTIONS" ;;
  send_header "Access-Control-Allow-Headers" "Content-Type".

Definition do_OPTIONS : M unit :=
  send_response 204 ;;
  send_cors_headers ;;
  end_headers.

Definition do_GET : M unit :=
  try_except
    (html <- read_index_html ;;
     send_response 200 ;;
     send_header "Content-Type" "text/html; charset=utf-8" ;;
     send_cors_headers ;;
     end_headers ;;
     wfile_write (Raw html))
    is_FileNotFoundError
    (fun _ =>
       send_response 404 ;;
       end_headers ;;
       wfile_write (Raw "Not found")).

Definition _send_json (status : Z) (data : value) : M unit :=
  send_response status ;;
  send_header "Content-Type" "application/json" ;;
  send_cors_headers ;;
  end_headers ;;
  wfile_write (JsonDumps data).

Definition _handle_analyze_text : M unit :=
  try_except
    (content_length <- headers_content_length ;;
     body <- rfile_read content_length ;;
     s <- lift (utf8_decode body) ;;
     data <- lift (json_loads s) ;;
     f <- py_get data "food" (PyStr "") ;;
     food <- py_strip f ;;
     if (food =? "")%string then
       _send_json 400 (PyDict [("error", PyStr "Please provide a food to analyse.")])
     else
       print ("  Analysing: " ++ dq ++ food ++ dq) ;;
       result <- call_anthropic food ;;
       rating <- py_get result "rating" (PyStr "?") ;;
       print ("  -> Rating: " ++ py_str rating ++ "/10") ;;
       _send_json 200 result)
    is_Exception
    (fun e =>
       print ("  Error: " ++ exn_str e) ;;
       _send_json 500 (PyDict [("error", PyStr (exn_str e))])).

Definition _handle_analyze_image : M unit :=
  try_except
    (content_length <- headers_content_length ;;
     if MAX_BODY_SIZE <? content_length then
       _send_json 413
         (PyDict [("error", PyStr "Image is too large. Please try a smaller photo.")])
     else
       body <- rfile_read content_length ;;
       s <- lift (utf8_decode body) ;;
       data <- lift (json_loads s) ;;
       image <- py_get data "image" (PyStr "") ;;
       media_type <- py_get data "media_type" (PyStr "") ;;
       if negb (truthy image) || negb (truthy media_type) then
         _send_json 400 (PyDict [("error", PyStr "Please provide an image to analyse.")])
       else
         known <- py_in media_type VALID_IMAGE_TYPES ;;
         if negb known then
           _send_json 400
             (PyDict [("error",
                       PyStr ("Unsupported image type: " ++ py_str media_type))])
         else
           print ("  Analysing photo (" ++ py_str media_type ++ ")...") ;;
           result <- call_anthropic_image image media_type ;;
           food <- py_get result "food" (PyStr "?") ;;
           rating <- py_get result "rating" (PyStr "?") ;;
           print ("  -> Food: " ++ py_str food ++ ", Rating: " ++ py_str rating ++ "/10") ;;
           _send_json 200 result)
    is_Exception
    (fun e =>
       print ("  Error: " ++ exn_str e) ;;
       _send_json 500 (PyDict [("error", PyStr (exn_str e))])).

Definition do_POST : M unit :=
  if (path self =? "/api/analyze")%string then _handle_analyze_text
  else if (path self =? "/api/analyze-image")%string then _handle_analyze_image
  else
    send_response 404 ;;
    end_headers ;;
    wfile_write (Raw "Not found").

End Program.


(** ** Start-up *)

(** The module-level code that runs before the handler class is defined:
    the port, [load_api_key] and the check of the key. *)
Section Startup.

Context {lib : PyLib}.

(** The [.env] file beside the script, as [load_api_key] sees it: the
    lines that iterating over the open file yields and, when opening or
    reading the file fails, the exception that ends the iteration. *)
Record env_file : Type := mkEnvFile
  { file_lines : list string;
    read_error : option exn }.

(** What the process finds when the module is loaded: [os.environ], and
    the [.env] file when [os.path.exists] finds one. *)
Record host : Type := mkHost
  { environ : string -> option string;
    dotenv : option env_file }.

(** [os.environ.get(name, default)] *)
Definition environ_get (h : host) (name default : string) : string :=
  match environ h name with
  | Some v => v
  | None => default
  end.

(** [s.split("=", 1)]: the text before the first [=] and the text after
    it, or the text alone when it has none. *)
Fixpoint str_split1 (s : string) : list string :=
  match s with
  | EmptyString => [""]
  | String c s' =>
      if (c =? "=")%char then [""; s']
      else match str_split1 s' with
           | first :: rest => String c first :: rest
           | [] => []
           end
  end.

(** [parts[1]] *)
Definition list_getitem1 (parts : list string) : M string :=
  match parts with
  | _ :: x :: _ => ret x
  | _ => raise (IndexError "list index out of range")
  end.

(** [PORT = int(os.environ.get("PORT", 3001))] *)
Definition PORT (h : host) : M Z :=
  match environ h "PORT" with
  | Some s => lift (py_int s)
  | None => ret 3001
  end.

(** The loop of [load_api_key] over the file: [Some] is the value it
    returns from inside the loop, [None] is the loop running out of
    lines. *)
Fixpoint scan_env_lines (lines : list string) (stop : option exn) : M (option string) :=
  match lines with
  | [] =>
      match stop with
      | Some e => raise e
      | None => ret None
      end
  | line :: rest =>
      let line := str_strip line in
      if String.prefix "ANTHROPIC_API_KEY=" line then
        v <- list_getitem1 (str_split1 line) ;;
        ret (Some (str_strip v))
      else scan_env_lines rest stop
  end.

Definition load_api_key (h : host) : M string :=
  let key := environ_get h "ANTHROPIC_API_KEY" "" in
  if negb (key =? "")%string then ret (str_strip key)
  else
    match dotenv h with
    | Some f =>
        found <- scan_env_lines (file_lines f) (read_error f) ;;
        match found with
        | Some v => ret v
        | None => ret ""
        end
    | None => ret ""
    end.

Definition nl : string := String "010"%char EmptyString.

(** The four lines printed before [sys.exit(1)]. *)
Definition missing_key_messages : trace :=
  [EvPrint (nl ++ "  Missing Anthropic API key!");
   EvPrint ("  Edit the .env file in this folder and paste your key:" ++ nl);
   EvPrint ("    ANTHROPIC_API_KEY=sk-ant-your-actual-key" ++ nl);
   EvPrint ("  Get your key at: https://console.anthropic.com/settings/keys" ++ nl)].

(** How loading the module ends: the process goes on to serve with a port
    and a key, or it has called [sys.exit]. *)
Inductive boot : Type :=
| Serving (port : Z) (key : string)
| SysExit (status : Z).

(** The module-level statements up to the check of the key. *)
Definition module_init (h : host) : M boot :=
  port <- PORT h ;;
  key <- load_api_key h ;;
  if (key =? "")%string || (key =? "paste-your-key-here")%string then
    print (nl ++ "  Missing Anthropic API key!") ;;
    print ("  Edit the .env file in this folder and paste your key:" ++ nl) ;;
    print ("    ANTHROPIC_API_KEY=sk-ant-your-actual-key" ++ nl) ;;
    print ("  Get your key at: https://console.anthropic.com/settings/keys" ++ nl) ;;
    ret (SysExit 1)
  else ret (Serving port key).

End Startup.


(** ** A reference library *)

(** An instance of [PyLib] that computes, for the concrete runs below.  It
    follows CPython on ASCII input: JSON documents whose numbers are
    integers and whose positions are counted in bytes, decimal [int]
    literals, ASCII white space.  Theorems are stated for every library;
    this one shows their hypotheses can be met. *)
Module Ref.

(** White space of the JSON grammar: space, tab, line feed, carriage return. *)
Definition is_json_ws (c : ascii) : bool :=
  match nat_of_ascii c with
  | 32%nat | 9%nat | 10%nat | 13%nat => true
  | _ => false
  end.

Fixpoint skip_ws (s : string) (pos : Z) : string * Z :=
  match s with
  | String c s' => if is_json_ws c then skip_ws s' (pos + 1) else (s, pos)
  | EmptyString => (s, pos)
  end.

Definition is_digit (c : ascii) : bool :=
  let n := nat_of_ascii c in ((48 <=? n) && (n <=? 57))%nat.

Definition digit_val (c : ascii) : Z := Z.of_nat (nat_of_ascii c) - 48.

(** A syntax error: the message and the position it is reported at. *)
Definition perr : Type := string * Z.

Definition parsed (A : Type) : Type := perr + (A * string * Z).

Fixpoint scan_digits (s : string) (pos acc : Z) : Z * string * Z :=
  match s with
  | String c s' =>
      if is_digit c then scan_digits s' (pos + 1) (10 * acc + digit_val c)
      else (acc, s, pos)
  | EmptyString => (acc, s, pos)
  end.

(** An integer literal: an optional minus sign, then a single zero or a
    run of digits that does not start with zero.  [start] is where the
    value began. *)
Definition scan_int (s : string) (pos start : Z) (neg : bool) : parsed value :=
  match s with
  | String c s' =>
      if (c =? "0")%char then inr (PyInt 0, s', pos + 1)
      else if is_digit c then
        let '(n, rest, p) := scan_digits s pos 0 in
        inr (PyInt (if neg then - n else n), rest, p)
      else inl ("Expecting value", start)
  | EmptyString => inl ("Expecting value", start)
  end.

Definition hex_val (c : ascii) : option Z :=
  let n := nat_of_ascii c in
  if ((48 <=? n) && (n <=? 57))%nat then Some (Z.of_nat n - 48)
  else if ((65 <=? n) && (n <=? 70))%nat then Some (Z.of_nat n - 55)
  else if ((97 <=? n) && (n <=? 102))%nat then Some (Z.of_nat n - 87)
  else None.

Definition byte_of (n : Z) : string :=
  String (ascii_of_nat (Z.to_nat n)) EmptyString.

(** UTF-8 encoding of a code point of the basic plane. *)
Definition utf8_encode (n : Z) : string :=
  if n <? 128 then byte_of n
  else if n <? 2048 then byte_of (192 + n / 64) ++ byte_of (128 + n mod 64)
  else byte_of (224 + n / 4096) ++ byte_of (128 + (n / 64) mod 64)
         ++ byte_of (128 + n mod 64).

(** The body of a string after its opening quote, which stood at [start]. *)
Fixpoint scan_string (s : string) (pos start : Z) (acc : string) : parsed string :=
  match s with
  | EmptyString => inl ("Unterminated string starting at", start)
  | String c s' =>
      if (c =? "034")%char then inr (acc, s', pos + 1)
      else if (c =? "\")%char then
        match s' with
        | String e s'' =>
            let plain (b : string) := scan_string s'' (pos + 2) start (acc ++ b) in
            if (e =? "034")%char then plain dq
            else if (e =? "\")%char then plain "\"
            else if (e =? "/")%char then plain "/"
            else if (e =? "b")%char then plain (byte_of 8)
            else if (e =? "f")%char then plain (byte_of 12)
            else if (e =? "n")%char then plain (byte_of 10)
            else if (e =? "r")%char then plain (byte_of 13)
            else if (e =? "t")%char then plain (byte_of 9)
            else if (e =? "u")%char then
              match s'' with
              | String h1 (String h2 (String h3 (String h4 s5))) =>
                  match hex_val h1, hex_val h2, hex_val h3, hex_val h4 with
                  | Some a, Some b, Some c', Some d =>
                      scan_string s5 (pos + 6) start
                        (acc ++ utf8_encode (4096 * a + 256 * b + 16 * c' + d))
                  | _, _, _, _ => inl ("Invalid \uXXXX escape", pos + 1)
                  end
              | _ => inl ("Invalid \uXXXX escape", pos + 1)
              end
            else inl ("Invalid \escape: '" ++ String e EmptyString ++ "'", pos)
        | EmptyString => inl ("Unterminated string starting at", start)
        end
      else if (nat_of_ascii c <? 32)%nat then
        inl ("Invalid control character at", pos)
      else scan_string s' (pos + 1) start (acc ++ String c EmptyString)
  end.

(** [d[k] = v] *)
Fixpoint dict_set (d : list (string * value)) (k : string) (v : value)
  : list (string * value) :=
  match d with
  | [] => [(k, v)]
  | (k', v') :: d' =>
      if (k' =? k)%string then (k, v) :: d' else (k', v') :: dict_set d' k v
  end.

Definition starts_with (p s : string) : option string :=
  if String.prefix p s
  then Some (substring (String.length p) (String.length s - String.length p) s)
  else None.

(** One JSON value at [pos]; the rest of an array after [[] or [,]; the
    rest of an object after [{] or [,]. *)
Fixpoint scan_value (fuel : nat) (s : string) (pos : Z) {struct fuel} : parsed value :=
  match fuel with
  | O => inl ("maximum recursion depth exceeded", pos)
  | S fuel' =>
      match s with
      | EmptyString => inl ("Expecting value", pos)
      | String c s' =>
          if (c =? "034")%char then
            match scan_string s' (pos + 1) pos "" with
            | inl e => inl e
            | inr (str, rest, p) => inr (PyStr str, rest, p)
            end
          else if (c =? "[")%char then
            let (s1, p1) := skip_ws s' (pos + 1) in
            match s1 with
            | String "]" s2 => inr (PyList [], s2, p1 + 1)
            | _ => scan_array fuel' [] s1 p1
            end
          else if (c =? "{")%char then
            let (s1, p1) := skip_ws s' (pos + 1) in
            match s1 with
            | String "}" s2 => inr (PyDict [], s2, p1 + 1)
            | _ => scan_object fuel' [] s1 p1
            end
          else if (c =? "-")%char then scan_int s' (pos + 1) pos true
          else if is_digit c then scan_int s pos pos false
          else
            match starts_with "null" s, starts_with "true" s, starts_with "false" s with
            | Some rest, _, _ => inr (PyNone, rest, pos + 4)
            | _, Some rest, _ => inr (PyBool true, rest, pos + 4)
            | _, _, Some rest => inr (PyBool false, rest, pos + 5)
            | _, _, _ => inl ("Expecting value", pos)
            end
      end
  end
with scan_array (fuel : nat) (acc : list value) (s : string) (pos : Z)
       {struct fuel} : parsed value :=
  match fuel with
  | O => inl ("maximum recursion depth exceeded", pos)
  | S fuel' =>
      match scan_value fuel' s pos with
      | inl e => inl e
      | inr (v, s1, p1) =>
          let (s2, p2) := skip_ws s1 p1 in
          match s2 with
          | String "]" s3 => inr (PyList (acc ++ [v]), s3, p2 + 1)
          | String "," s3 =>
              let (s4, p4) := skip_ws s3 (p2 + 1) in
              scan_array fuel' (acc ++ [v]) s4 p4
          | _ => inl ("Expecting ',' delimiter", p2)
          end
      end
  end
with scan_object (fuel : nat) (acc : list (string * value)) (s : string) (pos : Z)
       {struct fuel} : parsed value :=
  match fuel with
  | O => inl ("maximum recursion depth exceeded", pos)
  | S fuel' =>
      match s with
      | String "034" s0 =>
          match scan_string s0 (pos + 1) pos "" with
          | inl e => inl e
          | inr (k, s1, p1) =>
              let (s2, p2) := skip_ws s1 p1 in
              match s2 with
              | String ":" s3 =>
                  let (s4, p4) := skip_ws s3 (p2 + 1) in
                  match scan_value fuel' s4 p4 with
                  | inl e => inl e
                  | inr (v, s5, p5) =>
                      let (s6, p6) := skip_ws s5 p5 in
                      match s6 with
                      | String "}" s7 => inr (PyDict (dict_set acc k v), s7, p6 + 1)
                      | String "," s7 =>
                          let (s8, p8) := skip_ws s7 (p6 + 1) in
                          scan_object fuel' (dict_set acc k v) s8 p8
                      | _ => inl ("Expecting ',' delimiter", p6)
                      end
                  end
              | _ => inl ("Expecting ':' delimiter", p2)
              end
          end
      | _ => inl ("Expecting property name enclosed in double quotes", pos)
      end
  end.

(** Line and column (both from 1) of the position reached after [n] bytes. *)
Fixpoint line_col (s : string) (n : nat) (line col : Z) : Z * Z :=
  match n, s with
  | S n', String c s' =>
      if (c =? "010")%char then line_col s' n' (line + 1) 1
      else line_col s' n' line (col + 1)
  | _, _ => (line, col)
  end.

Definition decode_error_at (doc : string) (e : perr) : exn :=
  let (msg, pos) := e in
  let (line, col) := line_col doc (Z.to_nat pos) 1 1 in
  JSONDecodeError (mkDecodeError msg line col pos).

(** [json.loads]: one value between optional white space, nothing after. *)
Definition loads (doc : string) : exn + value :=
  let (s1, p1) := skip_ws doc 0 in
  match scan_value (2 * String.length doc + 2) s1 p1 with
  | inl e => inl (decode_error_at doc e)
  | inr (v, rest, p) =>
      let (s2, p2) := skip_ws rest p in
      match s2 with
      | EmptyString => inr v
      | _ => inl (decode_error_at doc ("Extra data", p2))
      end
  end.

Definition hex_digit (n : Z) : string :=
  substring (Z.to_nat n) 1 "0123456789abcdef".

Definition hex_byte (c : ascii) : string :=
  let n := Z.of_nat (nat_of_ascii c) in
  "0x" ++ hex_digit (n / 16) ++ hex_digit (n mod 16).

Definition cannot_decode (c : ascii) (pos : Z) (why : string) : exn :=
  UnicodeDecodeError
    ("'utf-8' codec can't decode byte " ++ hex_byte c ++ " in position "
       ++ string_of_Z pos ++ ": " ++ why).

(** UTF-8 well-formedness by lead and continuation bytes: [need] bytes of
    the sequence that began with [lead] at [start] are still to come. *)
Fixpoint utf8_scan (s : string) (pos : Z) (need : nat) (lead : ascii) (start : Z)
  : option exn :=
  match s with
  | EmptyString =>
      match need with
      | O => None
      | S _ => Some (cannot_decode lead start "unexpected end of data")
      end
  | String c s' =>
      let n := nat_of_ascii c in
      match need with
      | S need' =>
          if ((128 <=? n) && (n <? 192))%nat
          then utf8_scan s' (pos + 1) need' lead start
          else Some (cannot_decode lead start "invalid continuation byte")
      | O =>
          if (n <? 128)%nat then utf8_scan s' (pos + 1) 0 c pos
          else if ((194 <=? n) && (n <? 224))%nat then utf8_scan s' (pos + 1) 1 c pos
          else if ((224 <=? n) && (n <? 240))%nat then utf8_scan s' (pos + 1) 2 c pos
          else if ((240 <=? n) && (n <? 245))%nat then utf8_scan s' (pos + 1) 3 c pos
          else Some (cannot_decode c pos "invalid start byte")
      end
  end.

Definition decode (b : bytes) : exn + string :=
  match utf8_scan b 0 0 Ascii.zero 0 with
  | Some e => inl e
  | None => inr b
  end.

(** ASCII characters for which [str.isspace] holds. *)
Definition is_space (c : ascii) : bool :=
  let n := nat_of_ascii c in
  (((9 <=? n) && (n <=? 13)) || ((28 <=? n) && (n <=? 32)))%nat.

Fixpoint lstrip (s : string) : string :=
  match s with
  | String c s' => if is_space c then lstrip s' else s
  | EmptyString => s
  end.

Fixpoint rstrip (s : string) : string :=
  match s with
  | String c s' =>
      let r := rstrip s' in
      if (r =? "")%string && is_space c then "" else String c r
  | EmptyString => ""
  end.

Definition strip (s : string) : string := rstrip (lstrip s).

(** Digits with single underscores between them; [prev] tells whether the
    previous character was a digit. *)
Fixpoint scan_literal (s : string) (prev : bool) (acc : Z) : option Z :=
  match s with
  | EmptyString => if prev then Some acc else None
  | String c s' =>
      if is_digit c then scan_literal s' true (10 * acc + digit_val c)
      else if (c =? "_")%char && prev then scan_literal s' false acc
      else None
  end.

(** [int(s)] in base 10. *)
Definition int_of_str (s : string) : exn + Z :=
  let t := strip s in
  let (neg, body) :=
    match t with
    | String "-" r => (true, r)
    | String "+" r => (false, r)
    | _ => (false, t)
    end in
  match scan_literal body false 0 with
  | Some n => inr (if neg then - n else n)
  | None => inl (ValueError ("invalid literal for int() with base 10: '" ++ s ++ "'"))
  end.

(** [repr] without escapes in strings; the scanner above yields no
    [float], whose digits are not computed here. *)
Fixpoint repr (v : value) : string :=
  match v with
  | PyNone => "None"
  | PyBool true => "True"
  | PyBool false => "False"
  | PyInt n => string_of_Z n
  | PyFloat _ => "<float>"
  | PyStr s => "'" ++ s ++ "'"
  | PyList l => "[" ++ String.concat ", " (map repr l) ++ "]"
  | PyDict d =>
      "{" ++ String.concat ", "
               (map (fun kv => match kv with
                               | (k, x) => "'" ++ k ++ "': " ++ repr x
                               end) d)
          ++ "}"
  end.

(** [read(n)] of a buffered reader at the start of a stream that ends
    after the given bytes: all of them for [-1], at most [n] otherwise. *)
Definition read (content : bytes) (n : Z) : exn + bytes :=
  if n <? -1 then inl (ValueError "read length must be non-negative or -1")
  else if n =? -1 then inr content
  else inr (substring 0 (Z.to_nat n) content).

Definition lib : PyLib :=
  {| json_loads := loads;
     utf8_decode := decode;
     py_int := int_of_str;
     str_strip := strip;
     lib_repr := repr;
     stream_read := read;
     str_strip_empty := eq_refl;
     json_loads_empty :=
       ex_intro _ (mkDecodeError "Expecting value" 1 1 0) eq_refl |}.

End Ref.

(** ** Reading a run *)

Section Observations.

Context {lib : PyLib}.

(** The requests sent upstream, in order. *)
Fixpoint upstream_calls (t : trace) : list http_request :=
  match t with
  | [] => []
  | EvUrlopen r :: t' => r :: upstream_calls t'
  | _ :: t' => upstream_calls t'
  end.

(** The lengths asked of [self.rfile.read]. *)
Fixpoint body_reads (t : trace) : list Z :=
  match t with
  | [] => []
  | EvRfileRead n :: t' => n :: body_reads t'
  | _ :: t' => body_reads t'
  end.

(** The status lines written. *)
Fixpoint status_codes (t : trace) : list Z :=
  match t with
  | [] => []
  | EvSendResponse c :: t' => c :: status_codes t'
  | _ :: t' => status_codes t'
  end.

(** The headers the program sent. *)
Fixpoint sent_headers (t : trace) : list (string * string) :=
  match t with
  | [] => []
  | EvSendHeader k v :: t' => (k, v) :: sent_headers t'
  | _ :: t' => sent_headers t'
  end.

(** What was written to [self.wfile]. *)
Fixpoint written (t : trace) : list wire :=
  match t with
  | [] => []
  | EvWfileWrite b :: t' => b :: written t'
  | _ :: t' => written t'
  end.

(** The handler returned without an exception, having sent one response
    with status [code] and body [b]. *)
Definition replies (m : M unit) (code : Z) (b : wire) : Prop :=
  snd m = inr tt /\ status_codes (fst m) = [code] /\ written (fst m) = [b].

(** [json.dumps({"error": msg})] *)
Definition error_body (msg : string) : wire :=
  JsonDumps (PyDict [("error", PyStr msg)]).

Definition CORS_HEADERS : list (string * string) :=
  [("Access-Control-Allow-Origin", "*");
   ("Access-Control-Allow-Methods", "POST, GET, OPTIONS");
   ("Access-Control-Allow-Headers", "Content-Type")].

Definition carries_cors (t : trace) : Prop :=
  forall h, In h CORS_HEADERS -> In h (sent_headers t).

(** The declared length of the body, as both handlers compute it first. *)
Definition declared_length (self : request) : exn + Z :=
  snd (headers_content_length self).

(** The document a handler obtains from a request: the declared length,
    that many bytes of the stream, decoded and parsed. *)
Definition body_json (self : request) : exn + value :=
  match declared_length self with
  | inl e => inl e
  | inr n =>
      match stream_read (rfile self) n with
      | inl e => inl e
      | inr raw =>
          match utf8_decode raw with
          | inl e => inl e
          | inr s => json_loads s
          end
      end
  end.


(** The text of the first content block of an envelope. *)
Definition extracted_text (data : value) : exn + value :=
  snd (first_text data).

(** The request passes validation on its route and [payload] is what the
    route then sends upstream. *)
Inductive forwarded (self : request) : value -> Prop :=
| forwarded_text d f :
    path self = "/api/analyze" ->
    body_json self = inr (PyDict d) ->
    dict_lookup d "food" = Some (PyStr f) ->
    str_strip f <> "" ->
    forwarded self (text_payload (str_strip f))
| forwarded_image n d image mt :
    path self = "/api/analyze-image" ->
    declared_length self = inr n ->
    n <= MAX_BODY_SIZE ->
    body_json self = inr (PyDict d) ->
    dict_get d "image" (PyStr "") = image ->
    truthy image = true ->
    dict_lookup d "media_type" = Some (PyStr mt) ->
    In mt VALID_IMAGE_TYPES ->
    forwarded self (image_payload image (PyStr mt)).

(** The declared length, when there is one, passes the size gate of the
    image route. *)
Definition within_limit (self : request) : Prop :=
  forall n, declared_length self = inr n -> n <= MAX_BODY_SIZE.


(** A request whose body cannot be parsed, or whose [food] is not a [str],
    and the exception that this raises in the handler. *)
Inductive parse_failure (self : request) : exn -> Prop :=
| text_body_invalid e :
    path self = "/api/analyze" ->
    body_json self = inl e ->
    parse_failure self e
| image_body_invalid e :
    path self = "/api/analyze-image" ->
    within_limit self ->
    body_json self = inl e ->
    parse_failure self e
| food_not_str d v :
    path self = "/api/analyze" ->
    body_json self = inr (PyDict d) ->
    dict_lookup d "food" = Some v ->
    (forall s, v <> PyStr s) ->
    parse_failure self (AttributeError (type_name v) "strip").

(** A 2xx envelope that yields no verdict, and the exception that this
    raises in the upstream client: the extracted text is a string that is
    not JSON, or the list of content blocks is empty. *)
Inductive undecodable (data : value) : exn -> Prop :=
| bad_text t d :
    extracted_text data = inr (PyStr t) ->
    json_loads t = inl (JSONDecodeError d) ->
    undecodable data (JSONDecodeError d)
| no_blocks env :
    data = PyDict env ->
    dict_lookup env "content" = Some (PyList []) ->
    undecodable data (IndexError "list index out of range").

(** The run ends without an exception, after one JSON response whose
    status is among [codes] and which carries the CORS headers. *)
Definition json_reply (codes : list Z) (m : M unit) : Prop :=
  exists code data,
    replies m code (JsonDumps data) /\ carries_cors (fst m) /\ In code codes.

End Observations.


(** ** Reading a run, continued *)


(** At most one read of the request stream and at most one upstream call;
    a 200 only after an upstream call; a 400, 404 or 413 only without. *)
Definition disciplined (t : trace) : Prop :=
  (length (body_reads t) <= 1)%nat /\
  (length (upstream_calls t) <= 1)%nat /\
  (status_codes t = [200] -> exists r, upstream_calls t = [r]) /\
  (forall code, In code [400; 404; 413] ->
                status_codes t = [code] -> upstream_calls t = []).


(** ** Sample requests and upstream answers *)

Module Sample.

(** A JSON string literal, and the same inside another JSON string. *)
Definition q (s : string) : string := dq ++ s ++ dq.
Definition esc (s : string) : string := "\" ++ dq ++ s ++ "\" ++ dq.

(** A POST whose [Content-Length] is the length of its body. *)
Definition post (p : string) (body : bytes) : request :=
  {| path := p;
     requestline := "POST " ++ p ++ " HTTP/1.1";
     content_length := Some (string_of_Z (Z.of_nat (String.length body)));
     rfile := body |}.

(** A POST whose [Content-Length] header is [len], whatever it delivers. *)
Definition declare (p : string) (len : string) (body : bytes) : request :=
  {| path := p;
     requestline := "POST " ++ p ++ " HTTP/1.1";
     content_length := Some len;
     rfile := body |}.

(** A POST that declares [len] bytes and has sent none of them yet. *)
Definition announce (p : string) (len : string) : request := declare p len "".

Definition world_of (up : http_request -> exn + bytes) : world :=
  {| API_KEY := "sk-ant-test"; urlopen := up; index_html := None |}.

(** The endpoint answers 2xx with [raw]; answers with an error status; is
    not reachable. *)
Definition answers (raw : bytes) : world := world_of (fun _ => inr raw).
Definition rejects (code : Z) (reason : string) (raw : bytes) : world :=
  world_of (fun _ => inl (HTTPError code reason raw)).
Definition unreachable : world :=
  world_of (fun _ => inl (URLError "[Errno 111] Connection refused")).

(** [{"food": " apple "}] *)
Definition apple_request : request :=
  post "/api/analyze" ("{" ++ q "food" ++ ": " ++ q " apple " ++ "}").


(** [{"food": 42}] *)
Definition number_request : request :=
  post "/api/analyze" ("{" ++ q "food" ++ ": 42}").

(** [{"food": "apple"] *)
Definition truncated_request : request :=
  post "/api/analyze" ("{" ++ q "food" ++ ": " ++ q "apple").

(** [{"image": "aGVsbG8=", "media_type": "image/png"}] *)
Definition photo_request : request :=
  post "/api/analyze-image"
    ("{" ++ q "image" ++ ": " ++ q "aGVsbG8=" ++ ", "
         ++ q "media_type" ++ ": " ++ q "image/png" ++ "}").



(** [not json] under a declared length of 10,000,001 bytes *)
Definition oversize_garbage : request :=
  declare "/api/analyze-image" "10000001" "not json".


(** [{"content":[{"type":"text","text":"{\"food\":\"apple\",\"rating\":9}"}]}] *)
Definition apple_envelope : bytes :=
  "{" ++ q "content" ++ ":[{" ++ q "type" ++ ":" ++ q "text" ++ ","
      ++ q "text" ++ ":" ++ dq
      ++ "{" ++ esc "food" ++ ":" ++ esc "apple" ++ "," ++ esc "rating" ++ ":9}"
      ++ dq ++ "}]}".


(** [{"error":{"message":"rate limited"}}] *)
Definition rate_limited : bytes :=
  "{" ++ q "error" ++ ":{" ++ q "message" ++ ":" ++ q "rate limited" ++ "}}".

(** [{"error":"rate limited"}] *)
Definition rate_limited_flat : bytes :=
  "{" ++ q "error" ++ ":" ++ q "rate limited" ++ "}".

End Sample.


(** ** Sample hosts *)

Module SampleHost.

(** An environment given by its variables. *)
Fixpoint env_of (vars : list (string * string)) (name : string) : option string :=
  match vars with
  | [] => None
  | (k, v) :: vars' => if (k =? name)%string then Some v else env_of vars' name
  end.

(** The key is in the environment, padded with a newline. *)
Definition with_env_key : host :=
  {| environ := env_of [("ANTHROPIC_API_KEY", "sk-ant-abc" ++ nl)];
     dotenv := Some (mkEnvFile ["ANTHROPIC_API_KEY=sk-ant-from-file" ++ nl] None) |}.

(** The environment holds only blanks for the key; the file holds a key. *)
Definition with_blank_env_key : host :=
  {| environ := env_of [("ANTHROPIC_API_KEY", "  ")];
     dotenv := Some (mkEnvFile ["ANTHROPIC_API_KEY=sk-ant-from-file" ++ nl] None) |}.

(** No variable; the file has a comment, an indented key line whose value
    contains [=], and a second key line. *)
Definition with_env_file : host :=
  {| environ := env_of [];
     dotenv := Some (mkEnvFile ["# local settings" ++ nl;
                     "  ANTHROPIC_API_KEY= sk-ant-a=b " ++ nl;
                     "ANTHROPIC_API_KEY=second" ++ nl] None) |}.

(** No variable and a file without a key line. *)
Definition without_key : host :=
  {| environ := env_of [("PORT", "8080")];
     dotenv := Some (mkEnvFile ["# local settings" ++ nl; "PORT=8080" ++ nl] None) |}.

(** The file still holds the placeholder of the template. *)
Definition with_placeholder : host :=
  {| environ := env_of [];
     dotenv := Some (mkEnvFile ["ANTHROPIC_API_KEY=paste-your-key-here" ++ nl] None) |}.

(** A port that is not a number. *)
Definition with_bad_port : host :=
  {| environ := env_of [("PORT", "http"); ("ANTHROPIC_API_KEY", "sk-ant-abc")];
     dotenv := None |}.

End SampleHost.

(** ** Further sample requests and upstream answers *)

Module Edge.

(** The environment of [SampleHost.with_env_key] without a [.env] file. *)
Definition with_env_key_only : host :=
  {| environ := environ SampleHost.with_env_key; dotenv := None |}.



(** [[1]] *)
Definition array_request : request := Sample.post "/api/analyze" "[1]".

(** [{"image": "aGVsbG8=", "media_type": 7}] *)
Definition numeric_type_request : request :=
  Sample.post "/api/analyze-image"
    ("{" ++ Sample.q "image" ++ ": " ++ Sample.q "aGVsbG8=" ++ ", "
         ++ Sample.q "media_type" ++ ": 7}").

(** [{"image": "aGVsbG8=", "media_type": ["image/png"]}] *)
Definition list_type_request : request :=
  Sample.post "/api/analyze-image"
    ("{" ++ Sample.q "image" ++ ": " ++ Sample.q "aGVsbG8=" ++ ", "
         ++ Sample.q "media_type" ++ ": [" ++ Sample.q "image/png" ++ "]}").

(** [{"food": " apple "}] sent without a [Content-Length] header. *)
Definition headless_request : request :=
  {| path := "/api/analyze";
     requestline := "POST /api/analyze HTTP/1.1";
     content_length := None;
     rfile := rfile Sample.apple_request |}.

End Edge.


(** * Properties *)

(** Evaluate a run as far as the known results of library calls allow. *)
Ltac eval_run :=
  lazy beta iota zeta delta
    [bind try_except ret raise lift emit print app fst snd
     is_Exception is_HTTPError is_JSONDecodeError is_FileNotFoundError
     py_get py_strip py_in py_json_loads py_getitem0 py_str first_text extracted_text
     negb orb andb
     _send_json send_response log_message send_header send_cors_headers
     end_headers wfile_write
     replies error_body].

(** Read the response off an evaluated run. *)
Ltac finish :=
  eval_run;
  cbn [upstream_calls body_reads status_codes sent_headers written app fst snd];
  repeat split; try reflexivity.

(** Rewrite with what is known of the library calls and evaluate on. *)
Ltac use_eqs :=
  eval_run;
  repeat (match goal with
          | H : _ = inr _ |- _ => rewrite H
          | H : _ = inl _ |- _ => rewrite H
          | H : _ = true |- _ => rewrite H
          | H : _ = false |- _ => rewrite H
          | H : dict_get _ _ _ = _ |- _ => rewrite H
          end; eval_run).

Section Properties.

Context {lib : PyLib}.
Variable w : world.

(** ** The upstream client *)

Lemma py_get_pure v k dflt : fst (py_get v k dflt) = [].
Proof. destruct v; reflexivity. Qed.

Lemma py_json_loads_pure v : fst (py_json_loads v) = [].
Proof. destruct v; reflexivity. Qed.

Lemma pair_of_parts {A} (m : M A) t r : fst m = t -> snd m = r -> m = (t, r).
Proof. destruct m; cbn; congruence. Qed.

Lemma first_text_eq data : first_text data = ([], extracted_text data).
Proof.
  apply pair_of_parts; [|reflexivity].
  destruct data as [| | | | | |d]; try reflexivity.
  unfold first_text, py_get at 1.
  destruct (dict_get d "content" (PyList [PyDict []])) as [| | | |s|l|d'];
    try reflexivity.
  - destruct s; reflexivity.
  - destruct l as [|b l]; [reflexivity|]. destruct b; reflexivity.
Qed.

Lemma py_json_loads_eq v : py_json_loads v = ([], snd (py_json_loads v)).
Proof. apply pair_of_parts; [apply py_json_loads_pure|reflexivity]. Qed.

(** The handler of [HTTPError] sends nothing and always raises. *)
Lemma http_error_handler code raw :
  exists e,
    (body <- lift (utf8_decode raw) ;;
     msg <- try_except
              (err <- lift (json_loads body) ;;
               error <- py_get err "error" (PyDict []) ;;
               py_get error "message" (PyStr ("API error: " ++ string_of_Z code)))
              is_JSONDecodeError
              (fun _ => ret (PyStr ("API error: " ++ string_of_Z code))) ;;
     raise (PyException msg)) = (([] : trace), (inl e : exn + value)).
Proof.
  destruct (utf8_decode raw) as [e|body]; eval_run; [eauto|].
  destruct (json_loads body) as [e|err]; eval_run.
  - destruct e; eval_run; eauto.
  - destruct err as [| | | | | |d]; eval_run; eauto.
    destruct (dict_get d "error" (PyDict [])); eval_run; eauto.
Qed.

(** One call of the upstream client is one request sent, whatever comes
    back. *)
Lemma send_trace p : fst (_send_to_anthropic w p) = [EvUrlopen (Request w p)].
Proof.
  unfold _send_to_anthropic; cbv zeta.
  match goal with
  | |- fst (try_except _ is_HTTPError ?h) = _ => set (h0 := h)
  end.
  assert (Hh : forall e, is_HTTPError e = true ->
                         exists e', h0 e = (([] : trace), (inl e' : exn + value))).
  { intros e He. destruct e; try discriminate He. apply http_error_handler. }
  clearbody h0.
  assert (Hc : forall e, fst (if is_HTTPError e
                              then let (t', r) := h0 e in
                                   (([EvUrlopen (Request w p)] ++ t')%list, r)
                              else ([EvUrlopen (Request w p)], inl e))
                         = [EvUrlopen (Request w p)]).
  { intros e. destruct (is_HTTPError e) eqn:He; [|reflexivity].
    destruct (Hh e He) as [e' ->]. reflexivity. }
  lazy beta iota zeta delta [bind try_except lift emit app].
  destruct (urlopen w (Request w p)) as [e|raw]; [apply Hc|].
  destruct (utf8_decode raw) as [e|s]; [apply Hc|].
  destruct (json_loads s) as [e|data]; [apply Hc|].
  rewrite first_text_eq.
  destruct (extracted_text data) as [e|text]; [apply Hc|].
  rewrite py_json_loads_eq.
  destruct (snd (py_json_loads text)) as [e|v]; [apply Hc|reflexivity].
Qed.

Lemma send_eq p :
  _send_to_anthropic w p = ([EvUrlopen (Request w p)], snd (_send_to_anthropic w p)).
Proof. apply pair_of_parts; [apply send_trace|reflexivity]. Qed.



(** ** The handlers *)

Variable self : request.

Lemma _send_json_run status data :
  _send_json self status data =
    ([EvPrint ("  " ++ requestline self);
      EvSendResponse status;
      EvSendHeader "Content-Type" "application/json";
      EvSendHeader "Access-Control-Allow-Origin" "*";
      EvSendHeader "Access-Control-Allow-Methods" "POST, GET, OPTIONS";
      EvSendHeader "Access-Control-Allow-Headers" "Content-Type";
      EvEndHeaders;
      EvWfileWrite (JsonDumps data)], inr tt).
Proof. reflexivity. Qed.

Lemma do_POST_text :
  path self = "/api/analyze" -> do_POST w self = _handle_analyze_text w self.
Proof. unfold do_POST. intros ->. reflexivity. Qed.

Lemma do_POST_image :
  path self = "/api/analyze-image" -> do_POST w self = _handle_analyze_image w self.
Proof. unfold do_POST. intros ->. reflexivity. Qed.

Lemma headers_content_length_eq :
  headers_content_length self = ([], declared_length self).
Proof.
  unfold declared_length, headers_content_length.
  destruct (content_length self); reflexivity.
Qed.

Lemma body_json_inr v :
  body_json self = inr v ->
  exists n raw s,
    declared_length self = inr n /\
    stream_read (rfile self) n = inr raw /\
    utf8_decode raw = inr s /\
    json_loads s = inr v.
Proof.
  unfold body_json.
  destruct (declared_length self) as [e|n]; [discriminate|].
  destruct (stream_read (rfile self) n) as [e|raw] eqn:Hraw; [discriminate|].
  destruct (utf8_decode raw) as [e|s] eqn:Hs; [discriminate|].
  intros H. exists n, raw, s. repeat split; assumption.
Qed.


Lemma valid_type_true mt :
  In mt VALID_IMAGE_TYPES ->
  existsb (String.eqb mt) VALID_IMAGE_TYPES = true /\ (mt =? "")%string = false.
Proof.
  intros H. cbn in H. repeat (destruct H as [<-|H]; [split; reflexivity|]). destruct H.
Qed.

(** What a forwarded request leads to: one upstream call, and a response
    decided by what the upstream client returns or raises. *)
Lemma forwarded_outcome payload :
  forwarded self payload ->
  upstream_calls (fst (do_POST w self)) = [Request w payload] /\
  match snd (_send_to_anthropic w payload) with
  | inr (PyDict r) => replies (do_POST w self) 200 (JsonDumps (PyDict r))
  | inr v =>
      replies (do_POST w self) 500
        (error_body (exn_str (AttributeError (type_name v) "get")))
  | inl e => replies (do_POST w self) 500 (error_body (exn_str e))
  end.
Proof.
  intros [d f Hp Hb Hf Hne | n d image mt Hp Hn Hle Hb Him Ht Hm Hin].
  - rewrite (do_POST_text Hp).
    destruct (body_json_inr _ Hb) as (n & raw & s & Hn & Hraw & Hs & Hd).
    apply String.eqb_neq in Hne.
    assert (Hg : dict_get d "food" (PyStr "") = PyStr f)
      by (unfold dict_get; rewrite Hf; reflexivity).
    eassert (E : _handle_analyze_text w self = _).
    { unfold _handle_analyze_text, rfile_read, call_anthropic.
      rewrite headers_content_length_eq. use_eqs.
      rewrite send_eq. reflexivity. }
    rewrite E; clear E.
    destruct (snd (_send_to_anthropic w (text_payload (str_strip f))))
      as [e|v]; [|destruct v]; finish.
  - rewrite (do_POST_image Hp).
    destruct (body_json_inr _ Hb) as (n' & raw & s & Hn' & Hraw & Hs & Hd).
    assert (n' = n) by congruence. subst n'.
    assert (Hgate : (MAX_BODY_SIZE <? n) = false) by (apply Z.ltb_ge; assumption).
    destruct (valid_type_true _ Hin) as [Hk Hmt].
    assert (Hg : dict_get d "media_type" (PyStr "") = PyStr mt)
      by (unfold dict_get; rewrite Hm; reflexivity).
    assert (Htm : truthy (PyStr mt) = true) by (cbn; rewrite Hmt; reflexivity).
    subst image.
    eassert (E : _handle_analyze_image w self = _).
    { unfold _handle_analyze_image, rfile_read, call_anthropic_image.
      rewrite headers_content_length_eq. use_eqs.
      rewrite send_eq. reflexivity. }
    rewrite E; clear E.
    destruct (snd (_send_to_anthropic w
                     (image_payload (dict_get d "image" (PyStr "")) (PyStr mt))))
      as [e|v]; [|destruct v]; finish.
Qed.

Lemma body_json_inl e :
  body_json self = inl e ->
  declared_length self = inl e \/
  exists n, declared_length self = inr n /\
    (stream_read (rfile self) n = inl e \/
     exists raw, stream_read (rfile self) n = inr raw /\
       (utf8_decode raw = inl e \/
        exists s, utf8_decode raw = inr s /\ json_loads s = inl e)).
Proof.
  unfold body_json. intros H.
  destruct (declared_length self) as [e0|n]; [left; congruence|].
  right. exists n. split; [reflexivity|].
  destruct (stream_read (rfile self) n) as [e0|raw]; [left; congruence|].
  right. exists raw. split; [reflexivity|].
  destruct (utf8_decode raw) as [e0|s]; [left; congruence|].
  right. exists s. split; [reflexivity|assumption].
Qed.

Lemma cors_in_json_headers ct :
  forall h, In h CORS_HEADERS ->
    In h [("Content-Type", ct);
          ("Access-Control-Allow-Origin", "*");
          ("Access-Control-Allow-Methods", "POST, GET, OPTIONS");
          ("Access-Control-Allow-Headers", "Content-Type")].
Proof. intros h H. right. exact H. Qed.

(** Case analysis on the next call whose result is not known. *)
Ltac split_next :=
  match goal with
  | |- context [_send_to_anthropic ?w0 ?p] =>
      rewrite (send_eq p); destruct (snd (_send_to_anthropic w0 p)) eqn:?
  | |- context [match ?x with inl _ => _ | inr _ => _ end] =>
      lazymatch x with ?f _ => destruct x eqn:? | _ => is_var x; destruct x end
  | |- context [if ?x then _ else _] =>
      lazymatch x with ?f _ => destruct x eqn:? | _ => is_var x; destruct x end
  | |- context [match ?x with
                | PyDict _ => _
                | PyNone => _ | PyBool _ => _ | PyInt _ => _ | PyFloat _ => _
                | PyStr _ => _ | PyList _ => _
                end] =>
      lazymatch x with ?f _ => destruct x eqn:? | _ => is_var x; destruct x end
  end.

Ltac explore := eval_run; repeat (split_next; eval_run).

Ltac reply_with :=
  unfold json_reply; do 2 eexists;
  split; [finish
         |split; [unfold carries_cors; cbn [fst sent_headers app];
                  apply cors_in_json_headers
                 |cbn; tauto]].

(** The text route always ends with one JSON response. *)
Lemma text_route_replies : json_reply [200; 400; 500] (_handle_analyze_text w self).
Proof.
  unfold _handle_analyze_text, rfile_read, call_anthropic.
  rewrite headers_content_length_eq.
  explore; reply_with.
Qed.

(** The image route, once the declared length has passed the size gate,
    reads that many bytes and ends with one JSON response other than 413. *)
Lemma image_route_after_gate n :
  declared_length self = inr n ->
  n <= MAX_BODY_SIZE ->
  body_reads (fst (_handle_analyze_image w self)) = [n] /\
  json_reply [200; 400; 500] (_handle_analyze_image w self).
Proof.
  intros Hn Hle.
  assert (Hgate : (MAX_BODY_SIZE <? n) = false) by (apply Z.ltb_ge; assumption).
  unfold _handle_analyze_image, rfile_read, call_anthropic_image.
  rewrite headers_content_length_eq, Hn. eval_run. rewrite Hgate.
  explore; (split; [finish|reply_with]).
Qed.

(** The image route always ends with one JSON response. *)
Lemma image_route_replies :
  json_reply [200; 400; 413; 500] (_handle_analyze_image w self).
Proof.
  destruct (declared_length self) as [e|n] eqn:Hn.
  - unfold _handle_analyze_image. rewrite headers_content_length_eq, Hn.
    eval_run. reply_with.
  - destruct (MAX_BODY_SIZE <? n) eqn:Hgate.
    + unfold _handle_analyze_image. rewrite headers_content_length_eq, Hn.
      eval_run. rewrite Hgate. eval_run. reply_with.
    + apply Z.ltb_ge in Hgate.
      destruct (image_route_after_gate n Hn Hgate) as (_ & code & data & Hr & Hc & Hi).
      exists code, data. repeat split; try apply Hr; try assumption.
      cbn in Hi |- *. tauto.
Qed.



(** An envelope without a [content] member is undecodable too: the text
    defaults to the empty string, which is not JSON. *)
Lemma undecodable_without_content env :
  dict_lookup env "content" = None ->
  exists d, undecodable (PyDict env) (JSONDecodeError d).
Proof.
  intros H. destruct json_loads_empty as [d Hd].
  exists d. apply bad_text with (t := ""); [|exact Hd].
  unfold extracted_text, first_text. eval_run.
  unfold dict_get. rewrite H. reflexivity.
Qed.

(** ** The behaviour specified for the routes *)





(** C6.  For every food string, [call_anthropic] sends one request whose
    payload has the members model, max_tokens, system and messages: the
    fixed model identifier, 500, the text system prompt, and a single
    message with role "user" whose content is "Analyse this food: "
    followed by the food. *)
Theorem C6_text_payload food :
  exists fields message,
    map data (upstream_calls (fst (call_anthropic w food)))
      = [JsonDumps (PyDict fields)] /\
    map fst fields = ["model"; "max_tokens"; "system"; "messages"] /\
    dict_lookup fields "model" = Some (PyStr MODEL) /\
    dict_lookup fields "max_tokens" = Some (PyInt 500) /\
    dict_lookup fields "system" = Some (PyStr SYSTEM_PROMPT) /\
    dict_lookup fields "messages" = Some (PyList [PyDict message]) /\
    map fst message = ["role"; "content"] /\
    dict_lookup message "role" = Some (PyStr "user") /\
    dict_lookup message "content" = Some (PyStr ("Analyse this food: " ++ food)).
Proof.
  unfold call_anthropic. rewrite send_trace.
  do 2 eexists. repeat split; reflexivity.
Qed.

(** C7.  For every image and media type, [call_anthropic_image] sends one
    request whose payload has the fixed model identifier, max_tokens 1000,
    the image system prompt, and a single message with role "user" whose
    content is a list of two parts: first the image part, with a base64
    source carrying the media type and the data, then the text part with
    the fixed question. *)
Theorem C7_image_payload image_base64 media_type :
  exists fields message image_part source text_part,
    map data (upstream_calls (fst (call_anthropic_image w image_base64 media_type)))
      = [JsonDumps (PyDict fields)] /\
    map fst fields = ["model"; "max_tokens"; "system"; "messages"] /\
    dict_lookup fields "model" = Some (PyStr MODEL) /\
    dict_lookup fields "max_tokens" = Some (PyInt 1000) /\
    dict_lookup fields "system" = Some (PyStr IMAGE_SYSTEM_PROMPT) /\
    dict_lookup fields "messages" = Some (PyList [PyDict message]) /\
    dict_lookup message "role" = Some (PyStr "user") /\
    dict_lookup message "content"
      = Some (PyList [PyDict image_part; PyDict text_part]) /\
    dict_lookup image_part "type" = Some (PyStr "image") /\
    dict_lookup image_part "source" = Some (PyDict source) /\
    dict_lookup source "type" = Some (PyStr "base64") /\
    dict_lookup source "media_type" = Some media_type /\
    dict_lookup source "data" = Some image_base64 /\
    dict_lookup text_part "type" = Some (PyStr "text") /\
    dict_lookup text_part "text" = Some (PyStr image_question).
Proof.
  unfold call_anthropic_image. rewrite send_trace.
  do 5 eexists. repeat split; reflexivity.
Qed.


(** C10.  A POST to [/api/analyze] whose body cannot be parsed, a POST to
    [/api/analyze-image] whose declared length passes the size gate and
    whose body cannot be parsed, and a POST to [/api/analyze] whose body is
    a JSON object with a [food] member that is not a string, are all
    answered 500, with the message of the exception raised as the error,
    and nothing is sent upstream. *)
Theorem C10_parse_and_type_failures_are_500 e :
  parse_failure self e ->
  replies (do_POST w self) 500 (error_body (exn_str e)) /\
  upstream_calls (fst (do_POST w self)) = [].
Proof.
  intros [e' Hp Hb | e' Hp Hlim Hb | d v Hp Hb Hf Hns].
  - rewrite (do_POST_text Hp).
    unfold _handle_analyze_text, rfile_read.
    rewrite headers_content_length_eq.
    destruct (body_json_inl _ Hb)
      as [Hn | (n & Hn & [Hr | (raw & Hr & [Hs | (s & Hs & Hd)])])];
      use_eqs; finish.
  - rewrite (do_POST_image Hp).
    unfold _handle_analyze_image, rfile_read.
    rewrite headers_content_length_eq.
    destruct (body_json_inl _ Hb)
      as [Hn | (n & Hn & Hrest)]; [use_eqs; finish|].
    assert (Hgate : (MAX_BODY_SIZE <? n) = false)
      by (apply Z.ltb_ge, Hlim; assumption).
    destruct Hrest as [Hr | (raw & Hr & [Hs | (s & Hs & Hd)])];
      use_eqs; finish.
  - rewrite (do_POST_text Hp).
    destruct (body_json_inr _ Hb) as (n & raw & s & Hn & Hraw & Hs & Hd).
    assert (Hg : dict_get d "food" (PyStr "") = v)
      by (unfold dict_get; rewrite Hf; reflexivity).
    unfold _handle_analyze_text, rfile_read.
    rewrite headers_content_length_eq. use_eqs.
    destruct v; try (exfalso; eapply Hns; reflexivity); finish.
Qed.

(** ** Bodies of another shape *)

(** A body that is JSON but not an object has no [get]: both routes answer
    500 with the message of the [AttributeError]. *)
Lemma non_object_body_is_500 v :
  path self = "/api/analyze" \/
  (path self = "/api/analyze-image" /\ within_limit self) ->
  body_json self = inr v ->
  (forall d, v <> PyDict d) ->
  replies (do_POST w self) 500
    (error_body (sq ++ type_name v ++ "' object has no attribute 'get'")) /\
  upstream_calls (fst (do_POST w self)) = [].
Proof.
  intros Hp Hb Hv.
  destruct (body_json_inr _ Hb) as (n & raw & s & Hn & Hraw & Hs & Hd).
  destruct Hp as [Hp|[Hp Hlim]].
  - rewrite (do_POST_text Hp).
    unfold _handle_analyze_text, rfile_read.
    rewrite headers_content_length_eq. use_eqs.
    destruct v; try (exfalso; eapply Hv; reflexivity); finish.
  - rewrite (do_POST_image Hp).
    assert (Hgate : (MAX_BODY_SIZE <? n) = false)
      by (apply Z.ltb_ge, Hlim; assumption).
    unfold _handle_analyze_image, rfile_read.
    rewrite headers_content_length_eq. use_eqs.
    destruct v; try (exfalso; eapply Hv; reflexivity); finish.
Qed.

(** A [media_type] that is a non-empty list or object cannot be looked up
    in the set of allowed types: the image route answers 500. *)
Lemma unhashable_media_type_is_500 d mt :
  path self = "/api/analyze-image" ->
  within_limit self ->
  body_json self = inr (PyDict d) ->
  truthy (dict_get d "image" (PyStr "")) = true ->
  dict_get d "media_type" (PyStr "") = mt ->
  truthy mt = true ->
  type_name mt = "list" \/ type_name mt = "dict" ->
  replies (do_POST w self) 500
    (error_body ("unhashable type: '" ++ type_name mt ++ sq)) /\
  upstream_calls (fst (do_POST w self)) = [].
Proof.
  intros Hp Hlim Hb Hi Hm Ht Hty. rewrite (do_POST_image Hp).
  destruct (body_json_inr _ Hb) as (n & raw & s & Hn & Hraw & Hs & Hd).
  assert (Hgate : (MAX_BODY_SIZE <? n) = false)
    by (apply Z.ltb_ge, Hlim; assumption).
  unfold _handle_analyze_image, rfile_read.
  rewrite headers_content_length_eq. use_eqs.
  destruct mt; try (destruct Hty; discriminate); finish.
Qed.

(** ** Where the CORS headers are sent, and where they are not *)



Lemma post_routes_carry_cors :
  path self = "/api/analyze" \/ path self = "/api/analyze-image" ->
  carries_cors (fst (do_POST w self)).
Proof.
  intros [Hp|Hp].
  - rewrite (do_POST_text Hp).
    destruct text_route_replies as (code & data & _ & Hc & _). exact Hc.
  - rewrite (do_POST_image Hp).
    destruct image_route_replies as (code & data & _ & Hc & _). exact Hc.
Qed.



Lemma no_header_no_cors t : sent_headers t = [] -> ~ carries_cors t.
Proof.
  intros H Hc. specialize (Hc ("Access-Control-Allow-Origin", "*")).
  rewrite H in Hc. apply Hc. left. reflexivity.
Qed.

(** ** Upstream error statuses *)

(** What the client raises on an [HTTPError] whose body decodes: the value
    under [error.message], or the generic text when the body is not JSON or
    lacks the member; a body of another shape raises on the way. *)
Lemma send_result_http_error p code reason raw body :
  urlopen w (Request w p) = inl (HTTPError code reason raw) ->
  utf8_decode raw = inr body ->
  (forall err detail m,
      json_loads body = inr (PyDict err) ->
      dict_lookup err "error" = Some (PyDict detail) ->
      dict_lookup detail "message" = Some m ->
      snd (_send_to_anthropic w p) = inl (PyException m)) /\
  (forall d,
      json_loads body = inl (JSONDecodeError d) ->
      snd (_send_to_anthropic w p)
        = inl (PyException (PyStr ("API error: " ++ string_of_Z code)))) /\
  (forall err,
      json_loads body = inr (PyDict err) ->
      dict_lookup err "error" = None \/
      (exists detail, dict_lookup err "error" = Some (PyDict detail) /\
                      dict_lookup detail "message" = None) ->
      snd (_send_to_anthropic w p)
        = inl (PyException (PyStr ("API error: " ++ string_of_Z code)))) /\
  (forall err v,
      json_loads body = inr (PyDict err) ->
      dict_lookup err "error" = Some v ->
      (forall d, v <> PyDict d) ->
      snd (_send_to_anthropic w p) = inl (AttributeError (type_name v) "get")).
Proof.
  intros Hu Hb.
  assert (E : forall r,
             snd (try_except
                    (err <- lift (json_loads body) ;;
                     error <- py_get err "error" (PyDict []) ;;
                     py_get error "message" (PyStr ("API error: " ++ string_of_Z code)))
                    is_JSONDecodeError
                    (fun _ => ret (PyStr ("API error: " ++ string_of_Z code))))
             = r ->
             snd (_send_to_anthropic w p)
             = match r with inl e => inl e | inr m => inl (PyException m) end).
  { intros r <-. unfold _send_to_anthropic; cbv zeta.
    lazy beta iota zeta delta [bind try_except lift emit raise ret app fst snd].
    rewrite Hu. lazy beta iota zeta delta [is_HTTPError]. rewrite Hb.
    lazy beta iota zeta.
    destruct (json_loads body) as [e|err]; [destruct (is_JSONDecodeError e)|];
      lazy beta iota zeta; try reflexivity.
    destruct (py_get err "error" (PyDict [])) as [t [e|error]];
      [destruct (is_JSONDecodeError e)|]; lazy beta iota zeta; try reflexivity.
    destruct (py_get error "message" _) as [t' [e|m]];
      [destruct (is_JSONDecodeError e)|]; reflexivity. }
  repeat split.
  - intros err detail m Hj He Hm. rewrite (E (inr m)); [reflexivity|].
    eval_run. rewrite Hj. eval_run. unfold dict_get. rewrite He. eval_run.
    rewrite Hm. reflexivity.
  - intros d Hj.
    rewrite (E (inr (PyStr ("API error: " ++ string_of_Z code)))); [reflexivity|].
    eval_run. rewrite Hj. reflexivity.
  - intros err Hj Hc.
    rewrite (E (inr (PyStr ("API error: " ++ string_of_Z code)))); [reflexivity|].
    eval_run. rewrite Hj. eval_run. unfold dict_get.
    destruct Hc as [->|(detail & -> & Hm)]; eval_run;
      [cbn [dict_lookup]|rewrite Hm]; reflexivity.
  - intros err v Hj He Hv.
    rewrite (E (inl (AttributeError (type_name v) "get"))); [reflexivity|].
    eval_run. rewrite Hj. eval_run. unfold dict_get. rewrite He.
    destruct v; try reflexivity. exfalso. eapply Hv. reflexivity.
Qed.

(** The message of an upstream error reaches the client. *)
Lemma upstream_error_relayed payload code reason raw body err detail m :
  forwarded self payload ->
  urlopen w (Request w payload) = inl (HTTPError code reason raw) ->
  utf8_decode raw = inr body ->
  json_loads body = inr (PyDict err) ->
  dict_lookup err "error" = Some (PyDict detail) ->
  dict_lookup detail "message" = Some (PyStr m) ->
  replies (do_POST w self) 500 (error_body m).
Proof.
  intros Hf Hu Hb Hj He Hm.
  destruct (forwarded_outcome payload Hf) as [_ H].
  destruct (send_result_http_error payload code reason raw body Hu Hb) as (R & _).
  rewrite (R err detail (PyStr m) Hj He Hm) in H. exact H.
Qed.


(** An error body that is an object whose [error] member is not an object
    makes the client raise [AttributeError]; its message is what the client
    of the route receives. *)
Lemma upstream_error_other_shape payload code reason raw body err v :
  forwarded self payload ->
  urlopen w (Request w payload) = inl (HTTPError code reason raw) ->
  utf8_decode raw = inr body ->
  json_loads body = inr (PyDict err) ->
  dict_lookup err "error" = Some v ->
  (forall d, v <> PyDict d) ->
  replies (do_POST w self) 500
    (error_body (sq ++ type_name v ++ "' object has no attribute 'get'")).
Proof.
  intros Hf Hu Hb Hj He Hv.
  destruct (forwarded_outcome payload Hf) as [_ H].
  destruct (send_result_http_error payload code reason raw body Hu Hb)
    as (_ & _ & _ & R).
  rewrite (R err v Hj He Hv) in H. exact H.
Qed.

End Properties.

(** ** Concrete runs with the reference library *)

(** C2.  A POST to a path that is no route is answered 404 with the body
    "Not found" and with none of the three CORS headers: the program sends
    no header at all on that path. *)
Theorem C2_unmatched_post_lacks_cors :
  let run := @do_POST Ref.lib Sample.unreachable (Sample.post "/api/unknown" "{}") in
  status_codes (fst run) = [404] /\
  written (fst run) = [Raw "Not found"] /\
  sent_headers (fst run) = [] /\
  ~ carries_cors (fst run).
Proof.
  cbv zeta. repeat split; try reflexivity.
  apply no_header_no_cors. reflexivity.
Qed.

(** C8.  An upstream 429 whose body is [{"error":"rate limited"}], valid
    JSON that holds no [error.message], is answered 500 with the message of
    an [AttributeError] as the error, and not with "API error: 429". *)
Theorem C8_flat_error_body_leaks_attribute_error :
  let run := @do_POST Ref.lib
               (Sample.rejects 429 "Too Many Requests" Sample.rate_limited_flat)
               Sample.apple_request in
  replies run 500 (error_body "'str' object has no attribute 'get'") /\
  ~ replies run 500 (error_body "API error: 429").
Proof.
  cbv zeta. split.
  - vm_compute. repeat split; reflexivity.
  - intros (_ & _ & H). vm_compute in H. discriminate H.
Qed.

(** The instance named by the specification: an upstream 429 with the body
    [{"error":{"message":"rate limited"}}] is answered 500 with the error
    "rate limited". *)
Example upstream_429_rate_limited :
  replies (@do_POST Ref.lib
             (Sample.rejects 429 "Too Many Requests" Sample.rate_limited)
             Sample.apple_request)
    500 (error_body "rate limited").
Proof. vm_compute. repeat split; reflexivity. Qed.

(** An upstream 503 with a body that is not JSON is answered 500 with the
    error "API error: 503". *)
Example upstream_503_plain_text :
  replies (@do_POST Ref.lib
             (Sample.rejects 503 "Service Unavailable" "upstream down")
             Sample.photo_request)
    500 (error_body "API error: 503").
Proof. vm_compute. repeat split; reflexivity. Qed.

(** The image route relays a verdict as the text route does. *)
Example photo_verdict_relayed :
  replies (@do_POST Ref.lib (Sample.answers Sample.apple_envelope) Sample.photo_request)
    200 (JsonDumps (PyDict [("food", PyStr "apple"); ("rating", PyInt 9)])).
Proof. vm_compute. repeat split; reflexivity. Qed.

(** [{"food": 42}] is answered 500: an [int] has no [strip]. *)
Example number_as_food :
  replies (@do_POST Ref.lib Sample.unreachable Sample.number_request)
    500 (error_body "'int' object has no attribute 'strip'").
Proof. vm_compute. repeat split; reflexivity. Qed.

(** An endpoint that cannot be reached is answered 500 with the message
    of the [URLError]. *)
Example upstream_unreachable :
  replies (@do_POST Ref.lib Sample.unreachable Sample.apple_request)
    500 (error_body "<urlopen error [Errno 111] Connection refused>").
Proof. vm_compute. repeat split; reflexivity. Qed.

(** A GET without [index.html] is answered 404 without any header of the
    program, like the unmatched POST. *)
Example get_without_page :
  let run := do_GET Sample.unreachable
               {| path := "/"; requestline := "GET / HTTP/1.1";
                  content_length := None; rfile := "" |} in
  status_codes (fst run) = [404] /\ sent_headers (fst run) = [].
Proof. split; reflexivity. Qed.


(** C10 as first stated, for every POST to the image route whose body is
    not valid JSON, fails above the size limit: this request has the body
    [not json] but declares 10,000,001 bytes and is answered 413, not 500. *)
Lemma C10_counterexample :
  let self := Sample.oversize_garbage in
  let run := @do_POST Ref.lib Sample.unreachable self in
  path self = "/api/analyze-image" /\
  (exists d, @body_json Ref.lib self = inl (JSONDecodeError d)) /\
  replies run 413 (error_body "Image is too large. Please try a smaller photo.") /\
  forall msg, ~ replies run 500 (error_body msg).
Proof.
  cbv zeta. split; [reflexivity|]. split; [|split].
  - eexists. vm_compute. reflexivity.
  - vm_compute. repeat split; reflexivity.
  - intros msg (_ & H & _). vm_compute in H. discriminate H.
Qed.






Lemma C10_witness :
  replies (@do_POST Ref.lib Sample.unreachable Sample.truncated_request)
    500 (error_body "Expecting ',' delimiter: line 1 column 17 (char 16)") /\
  upstream_calls (fst (@do_POST Ref.lib Sample.unreachable Sample.truncated_request)) = [].
Proof.
  apply (@C10_parse_and_type_failures_are_500 Ref.lib Sample.unreachable
           Sample.truncated_request
           (JSONDecodeError (mkDecodeError "Expecting ',' delimiter" 1 17 16))).
  apply text_body_invalid.
  - reflexivity.
  - vm_compute. reflexivity.
Defined.


(** * Further properties *)

(** ** Start-up: the port and the key *)

Section StartupProperties.

Context {lib : PyLib}.



Lemma prefix_inv p : forall s, String.prefix p s = true -> exists v, s = p ++ v.
Proof.
  induction p as [|a p IH]; intros s H.
  - exists s. reflexivity.
  - destruct s as [|b s]; [discriminate H|].
    cbn in H. destruct (ascii_dec a b) as [->|]; [|discriminate H].
    destruct (IH s H) as [v ->]. exists v. reflexivity.
Qed.

(** A line that starts with the name and [=] splits into the name and the
    rest, however many [=] the rest holds. *)
Lemma key_line_splits v :
  str_split1 ("ANTHROPIC_API_KEY=" ++ v) = ["ANTHROPIC_API_KEY"; v].
Proof. reflexivity. Qed.

Lemma scan_env_lines_skips pre rest stop :
  (forall l, In l pre -> String.prefix "ANTHROPIC_API_KEY=" (str_strip l) = false) ->
  scan_env_lines (pre ++ rest)%list stop = scan_env_lines rest stop.
Proof.
  induction pre as [|l pre IH]; intros H; [reflexivity|].
  cbn [app scan_env_lines]. rewrite (H l (or_introl eq_refl)).
  apply IH. intros l' Hl'. apply H. right. exact Hl'.
Qed.

(** The loop prints nothing, and it ends with a value, with the lines
    used up, or with the exception that ended the reading after lines
    that held no key: indexing the split line never fails. *)
Lemma scan_env_lines_outcome lines stop :
  (exists v, scan_env_lines lines stop = ([], inr (Some v))) \/
  ((forall l, In l lines ->
      String.prefix "ANTHROPIC_API_KEY=" (str_strip l) = false) /\
   scan_env_lines lines stop =
     ([], match stop with Some e => inl e | None => inr None end)).
Proof.
  induction lines as [|l lines IH].
  - right. split; [intros l []|]. destruct stop; reflexivity.
  - cbn [scan_env_lines].
    destruct (String.prefix "ANTHROPIC_API_KEY=" (str_strip l)) eqn:Hp.
    + left. destruct (prefix_inv _ _ Hp) as [v ->]. rewrite key_line_splits.
      eexists. reflexivity.
    + destruct IH as [IH|[Hno IH]]; [left; exact IH|right].
      split; [|exact IH]. intros l' [<-|Hl']; [exact Hp|apply Hno, Hl'].
Qed.

Lemma load_api_key_pure (h : host) : fst (load_api_key h) = [].
Proof.
  unfold load_api_key.
  destruct (negb (environ_get h "ANTHROPIC_API_KEY" "" =? "")%string);
    [reflexivity|].
  destruct (dotenv h) as [f|]; [|reflexivity].
  destruct (scan_env_lines_outcome (file_lines f) (read_error f))
    as [[v ->]|[_ ->]]; [reflexivity|].
  destruct (read_error f); reflexivity.
Qed.

Lemma PORT_pure (h : host) : fst (PORT h) = [].
Proof. unfold PORT. destruct (environ h "PORT"); reflexivity. Qed.

Lemma environment_key_wins (h : host) k :
  environ h "ANTHROPIC_API_KEY" = Some k ->
  k <> "" ->
  load_api_key h = ([], inr (str_strip k)).
Proof.
  intros He Hk. apply String.eqb_neq in Hk.
  unfold load_api_key, environ_get. rewrite He, Hk. reflexivity.
Qed.

(** X1.  With a non-empty [ANTHROPIC_API_KEY] in the environment the
    [.env] file has no influence on start-up: two hosts with the same
    environment start the same way, whatever their files hold. *)
Theorem X1_environment_key_hides_file (h h' : host) k :
  (forall name, environ h' name = environ h name) ->
  environ h "ANTHROPIC_API_KEY" = Some k ->
  k <> "" ->
  module_init h' = module_init h.
Proof.
  intros Henv He Hk.
  assert (He' : environ h' "ANTHROPIC_API_KEY" = Some k) by (rewrite Henv; exact He).
  unfold module_init, PORT.
  rewrite (environment_key_wins h k He Hk), (environment_key_wins h' k He' Hk).
  rewrite Henv. reflexivity.
Qed.


Lemma load_api_key_outcome (h : host) :
  (exists key, load_api_key h = ([], inr key)) \/
  (exists f e,
     load_api_key h = ([], inl e) /\
     environ_get h "ANTHROPIC_API_KEY" "" = "" /\
     dotenv h = Some f /\
     read_error f = Some e /\
     forall l, In l (file_lines f) ->
       String.prefix "ANTHROPIC_API_KEY=" (str_strip l) = false).
Proof.
  unfold load_api_key.
  destruct (environ_get h "ANTHROPIC_API_KEY" "" =? "")%string eqn:Hk;
    cbn [negb]; [|left; eexists; reflexivity].
  apply String.eqb_eq in Hk.
  destruct (dotenv h) as [f|]; [|left; eexists; reflexivity].
  destruct (scan_env_lines_outcome (file_lines f) (read_error f))
    as [[v ->]|[Hno ->]]; [left; eexists; reflexivity|].
  destruct (read_error f) as [e|] eqn:Hr; [right|left; eexists; reflexivity].
  exists f, e. repeat split; try reflexivity; assumption.
Qed.

(** X3.  [load_api_key] prints nothing, and it either returns a key or
    raises the exception that ended the reading of a [.env] file in which
    no key line came first, the environment holding no key.  It raises
    nothing of its own: a line that passes the prefix test always has a
    second part, so [split("=", 1)[1]] cannot fail. *)
Theorem X3_load_api_key_raises_only_read_errors (h : host) :
  (exists key, load_api_key h = ([], inr key)) \/
  (exists f e,
     load_api_key h = ([], inl e) /\
     environ_get h "ANTHROPIC_API_KEY" "" = "" /\
     dotenv h = Some f /\
     read_error f = Some e /\
     forall l, In l (file_lines f) ->
       String.prefix "ANTHROPIC_API_KEY=" (str_strip l) = false).
Proof. exact (load_api_key_outcome h). Qed.

(** X4.  The module goes on to serve only with a key that is neither empty
    nor the placeholder of the template; that key is what [load_api_key]
    returned, the port is what [PORT] evaluated to, and nothing was
    printed. *)
Theorem X4_serving_key_is_usable (h : host) port key :
  snd (module_init h) = inr (Serving port key) ->
  key <> "" /\ key <> "paste-your-key-here" /\
  load_api_key h = ([], inr key) /\
  PORT h = ([], inr port) /\
  fst (module_init h) = [].
Proof.
  unfold module_init.
  pose proof (PORT_pure h) as Hpure.
  destruct (PORT h) as [tp [e|p]]; [discriminate|].
  cbn in Hpure. subst tp.
  pose proof (load_api_key_pure h) as Hk.
  destruct (load_api_key h) as [tk [e|k]]; [discriminate|].
  cbn in Hk. subst tk. cbn [bind app].
  destruct (k =? "")%string eqn:E1; [discriminate|].
  destruct (k =? "paste-your-key-here")%string eqn:E2; [discriminate|].
  cbn. intros [= <- <-].
  apply String.eqb_neq in E1, E2. repeat split; assumption || reflexivity.
Qed.

(** X5.  An [ANTHROPIC_API_KEY] variable that holds only white space stops
    the process: it is not empty, so the [.env] file is not read, and it is
    empty once stripped, so the module prints the four lines about the
    missing key and exits with status 1, even if the file holds a key. *)
Theorem X5_blank_environment_key_exits (h : host) k port :
  PORT h = ([], inr port) ->
  environ h "ANTHROPIC_API_KEY" = Some k ->
  k <> "" ->
  str_strip k = "" ->
  module_init h = (missing_key_messages, inr (SysExit 1)).
Proof.
  intros Hp He Hk Hs. unfold module_init.
  rewrite Hp, (environment_key_wins h k He Hk), Hs. reflexivity.
Qed.

(** X6.  Without a key in the environment and without a key line in a
    [.env] file read to its end, or without that file, the module prints the four lines
    about the missing key and exits with status 1. *)
Theorem X6_no_key_exits (h : host) port :
  PORT h = ([], inr port) ->
  environ_get h "ANTHROPIC_API_KEY" "" = "" ->
  (dotenv h = None \/
   exists lines, dotenv h = Some (mkEnvFile lines None) /\
     forall l, In l lines ->
       String.prefix "ANTHROPIC_API_KEY=" (str_strip l) = false) ->
  module_init h = (missing_key_messages, inr (SysExit 1)).
Proof.
  intros Hp He Hf. unfold module_init, load_api_key.
  rewrite Hp, He. cbn [String.eqb negb].
  destruct Hf as [->|(lines & -> & Hno)]; [reflexivity|].
  cbn [file_lines read_error].
  rewrite <- (app_nil_r lines), (scan_env_lines_skips lines [] None Hno).
  reflexivity.
Qed.

(** X7.  Start-up ends with an exception in exactly two cases: [int]
    rejects the [PORT] variable, and then the key is never looked for; or,
    the port being fine and the environment holding no key, reading the
    [.env] file fails before a key line is found.  The exception is the
    one of [int] or of the file, and nothing is printed before it, not
    even the lines about a missing key. *)
Theorem X7_startup_raises_for_port_or_file (h : host) e :
  (snd (module_init h) = inl e <->
   (exists s, environ h "PORT" = Some s /\ py_int s = inl e) \/
   ((exists port, PORT h = ([], inr port)) /\
    environ_get h "ANTHROPIC_API_KEY" "" = "" /\
    exists f, dotenv h = Some f /\ read_error f = Some e /\
      forall l, In l (file_lines f) ->
        String.prefix "ANTHROPIC_API_KEY=" (str_strip l) = false)) /\
  (snd (module_init h) = inl e -> fst (module_init h) = []).
Proof.
  assert (Hport : (exists s e', environ h "PORT" = Some s /\ py_int s = inl e' /\
                                module_init h = ([], inl e')) \/
                  (exists p, PORT h = ([], inr p))).
  { unfold module_init, PORT. destruct (environ h "PORT") as [s|].
    - destruct (py_int s) as [e'|p] eqn:Hi.
      + left. exists s, e'. repeat split. exact Hi.
      + right. exists p. reflexivity.
    - right. eexists. reflexivity. }
  destruct Hport as [(s & e' & Hs & Hi & Hm)|[p Hp]].
  - rewrite Hm. cbn [fst snd]. split; [|reflexivity]. split.
    + intros [= <-]. left. exists s. split; assumption.
    + intros [(s' & Hs' & Hi')|[[p Hp] _]].
      * congruence.
      * unfold PORT in Hp. rewrite Hs, Hi in Hp. discriminate Hp.
  - assert (Hgood : forall s, environ h "PORT" = Some s -> py_int s <> inl e).
    { intros s Hs Hi. unfold PORT in Hp. rewrite Hs, Hi in Hp. discriminate Hp. }
    unfold module_init. rewrite Hp.
    destruct (load_api_key_outcome h) as [[k Hk]|(f & e' & Hl & Hk & Hd & Hr & Hno)];
      rewrite Hl || rewrite Hk; cbn [bind app fst snd].
    + split.
      * split.
        -- destruct ((k =? "") || (k =? "paste-your-key-here"))%string;
             cbn; discriminate.
        -- intros [(s & Hs & Hi)|(_ & Hk' & f & Hd & Hr & Hno)].
           ++ exfalso. exact (Hgood s Hs Hi).
           ++ exfalso. unfold load_api_key in Hk. rewrite Hk', Hd in Hk.
              cbn [String.eqb negb] in Hk.
              destruct (scan_env_lines_outcome (file_lines f) (read_error f))
                as [[v Hv]|[_ Hv]].
              ** rewrite <- (app_nil_r (file_lines f)) in Hv.
                 rewrite (scan_env_lines_skips _ [] _ Hno) in Hv.
                 cbn in Hv. rewrite Hr in Hv. discriminate Hv.
              ** rewrite Hv, Hr in Hk. discriminate Hk.
      * destruct ((k =? "") || (k =? "paste-your-key-here"))%string;
          cbn; discriminate.
    + split; [|reflexivity]. split.
      * intros [= <-]. right. split; [exists p; reflexivity|].
        split; [exact Hk|]. exists f. repeat split; assumption.
      * intros [(s & Hs & Hi)|(_ & _ & f' & Hd' & Hr' & _)].
        -- exfalso. exact (Hgood s Hs Hi).
        -- congruence.
Qed.

End StartupProperties.


(** ** The routes and the upstream client *)

Section RouteProperties.

Context {lib : PyLib}.
Variable w : world.
Variable self : request.

(** Case analysis on the next call whose result is not known. *)
Ltac split_next :=
  match goal with
  | |- context [_send_to_anthropic ?w0 ?p] =>
      rewrite (send_eq w0 p); destruct (snd (_send_to_anthropic w0 p)) eqn:?
  | |- context [match ?x with inl _ => _ | inr _ => _ end] =>
      lazymatch x with ?f _ => destruct x eqn:? | _ => is_var x; destruct x end
  | |- context [if ?x then _ else _] =>
      lazymatch x with ?f _ => destruct x eqn:? | _ => is_var x; destruct x end
  | |- context [match ?x with
                | PyDict _ => _
                | PyNone => _ | PyBool _ => _ | PyInt _ => _ | PyFloat _ => _
                | PyStr _ => _ | PyList _ => _
                end] =>
      lazymatch x with ?f _ => destruct x eqn:? | _ => is_var x; destruct x end
  end.

Ltac explore := eval_run; repeat (split_next; eval_run).

Ltac views :=
  cbn [upstream_calls body_reads status_codes sent_headers written
       app fst snd length].

(** Settle [disciplined] on an evaluated run. *)
Ltac settle :=
  unfold disciplined; views;
  repeat split; intros;
  try lia; try discriminate; eauto;
  repeat match goal with
         | H : In _ _ |- _ => cbn in H
         | H : [_] = [_] |- _ => injection H as <-
         end;
  intuition discriminate.

Lemma not_matched_or_matched :
  (path self =? "/api/analyze")%string = true \/
  (path self =? "/api/analyze-image")%string = true \/
  ((path self =? "/api/analyze")%string = false /\
   (path self =? "/api/analyze-image")%string = false).
Proof.
  destruct (path self =? "/api/analyze")%string; [left; reflexivity|].
  destruct (path self =? "/api/analyze-image")%string; [right; left; reflexivity|].
  right; right; split; reflexivity.
Qed.



(** X9.  Every POST reads the request stream at most once and calls the
    upstream endpoint at most once; it answers 200 only after an upstream
    call, and 400, 404 or 413 only without one. *)
Theorem X9_post_is_disciplined : disciplined (fst (do_POST w self)).
Proof.
  unfold do_POST.
  destruct not_matched_or_matched as [H|[H|[H1 H2]]].
  - rewrite H.
    unfold _handle_analyze_text, rfile_read, call_anthropic.
    rewrite headers_content_length_eq.
    explore; settle.
  - destruct (path self =? "/api/analyze")%string eqn:H0.
    + unfold _handle_analyze_text, rfile_read, call_anthropic.
      rewrite headers_content_length_eq.
      explore; settle.
    + rewrite H.
      unfold _handle_analyze_image, rfile_read, call_anthropic_image.
      rewrite headers_content_length_eq.
      explore; settle.
  - rewrite H1, H2. eval_run. settle.
Qed.






(** X13.  Each call of the upstream client sends exactly one request,
    whatever comes back, and does nothing else: a POST to the messages
    endpoint with the serialised payload and the headers Content-Type,
    x-api-key (the configured key) and anthropic-version. *)
Theorem X13_one_request_per_client_call p :
  fst (_send_to_anthropic w p) =
    [EvUrlopen {| url := "https://api.anthropic.com/v1/messages";
                  data := JsonDumps p;
                  req_headers := [("Content-Type", "application/json");
                                  ("x-api-key", API_KEY w);
                                  ("anthropic-version", "2023-06-01")];
                  method := "POST" |}].
Proof. apply send_trace. Qed.




(** X17.  A request body that is JSON but not an object is answered 500
    with the message of the [AttributeError] that [data.get] raises, on
    both routes, and nothing is sent upstream. *)
Theorem X17_body_must_be_an_object v :
  path self = "/api/analyze" \/
  (path self = "/api/analyze-image" /\ within_limit self) ->
  body_json self = inr v ->
  (forall d, v <> PyDict d) ->
  replies (do_POST w self) 500
    (error_body (sq ++ type_name v ++ "' object has no attribute 'get'")) /\
  upstream_calls (fst (do_POST w self)) = [].
Proof. apply non_object_body_is_500. Qed.

(** X18.  A [media_type] that is a number or [true] is not in the
    allow-list either: with a filled [image], the image route answers 400
    with "Unsupported image type: " followed by [str] of the value, and
    sends nothing upstream. *)
Theorem X18_numeric_media_type_is_rejected d mt :
  path self = "/api/analyze-image" ->
  within_limit self ->
  body_json self = inr (PyDict d) ->
  truthy (dict_get d "image" (PyStr "")) = true ->
  dict_get d "media_type" (PyStr "") = mt ->
  truthy mt = true ->
  In (type_name mt) ["bool"; "int"; "float"] ->
  replies (do_POST w self) 400
    (error_body ("Unsupported image type: " ++ py_str mt)) /\
  upstream_calls (fst (do_POST w self)) = [].
Proof.
  intros Hp Hlim Hb Hi Hm Ht Hty. rewrite (do_POST_image w self Hp).
  destruct (body_json_inr self _ Hb) as (n & raw & s & Hn & Hraw & Hs & Hd).
  assert (Hgate : (MAX_BODY_SIZE <? n) = false)
    by (apply Z.ltb_ge, Hlim; assumption).
  unfold _handle_analyze_image, rfile_read.
  rewrite headers_content_length_eq. use_eqs.
  destruct mt; cbn in Hty; try (exfalso; intuition discriminate); finish.
Qed.

(** X19.  A [media_type] that is a non-empty list or object cannot be
    looked up in the set of allowed types: with a filled [image], the image
    route answers 500 and sends nothing upstream. *)
Theorem X19_unhashable_media_type_is_500 d mt :
  path self = "/api/analyze-image" ->
  within_limit self ->
  body_json self = inr (PyDict d) ->
  truthy (dict_get d "image" (PyStr "")) = true ->
  dict_get d "media_type" (PyStr "") = mt ->
  truthy mt = true ->
  type_name mt = "list" \/ type_name mt = "dict" ->
  (exists msg, replies (do_POST w self) 500 (error_body msg)) /\
  upstream_calls (fst (do_POST w self)) = [].
Proof.
  intros Hp Hlim Hb Hi Hm Ht Hty.
  destruct (unhashable_media_type_is_500 w self d mt Hp Hlim Hb Hi Hm Ht Hty)
    as [Hr Hu].
  split; [eexists; exact Hr|exact Hu].
Qed.

(** X20.  A [Content-Length] header that [int] rejects is answered 500
    with the message of that exception on both routes; the request stream
    is not read and nothing is sent upstream. *)
Theorem X20_bad_content_length_is_500_unread e :
  path self = "/api/analyze" \/ path self = "/api/analyze-image" ->
  declared_length self = inl e ->
  replies (do_POST w self) 500 (error_body (exn_str e)) /\
  body_reads (fst (do_POST w self)) = [] /\
  upstream_calls (fst (do_POST w self)) = [].
Proof.
  intros [Hp|Hp] He.
  - rewrite (do_POST_text w self Hp). unfold _handle_analyze_text.
    rewrite headers_content_length_eq. use_eqs. finish.
  - rewrite (do_POST_image w self Hp). unfold _handle_analyze_image.
    rewrite headers_content_length_eq. use_eqs. finish.
Qed.

Lemma text_route_reads_declared n :
  declared_length self = inr n ->
  body_reads (fst (_handle_analyze_text w self)) = [n].
Proof.
  intros Hn.
  unfold _handle_analyze_text, rfile_read, call_anthropic.
  rewrite headers_content_length_eq, Hn.
  explore; finish.
Qed.

(** X21.  The text route has no size limit: it asks the request stream for
    exactly the declared number of bytes, whatever that number is. *)
Theorem X21_text_route_reads_declared_length n :
  path self = "/api/analyze" ->
  declared_length self = inr n ->
  body_reads (fst (do_POST w self)) = [n].
Proof.
  intros Hp Hn. rewrite (do_POST_text w self Hp).
  apply text_route_reads_declared. exact Hn.
Qed.


(** X23.  A POST without a [Content-Length] header has its body ignored:
    both routes ask the request stream for 0 bytes. *)
Theorem X23_missing_content_length_reads_nothing :
  path self = "/api/analyze" \/ path self = "/api/analyze-image" ->
  content_length self = None ->
  body_reads (fst (do_POST w self)) = [0].
Proof.
  intros Hp Hc.
  assert (Hn : declared_length self = inr 0).
  { unfold declared_length, headers_content_length. rewrite Hc. reflexivity. }
  destruct Hp as [Hp|Hp].
  - rewrite (do_POST_text w self Hp). apply text_route_reads_declared. exact Hn.
  - rewrite (do_POST_image w self Hp).
    apply (image_route_after_gate w self 0 Hn). unfold MAX_BODY_SIZE. lia.
Qed.

(** Finish a branch in which the handler makes no upstream call. *)
Ltac no_call :=
  use_eqs;
  cbn [upstream_calls body_reads status_codes sent_headers written app fst snd In];
  tauto.

Lemma text_call_is_validated r :
  path self = "/api/analyze" ->
  In r (upstream_calls (fst (do_POST w self))) ->
  exists payload, forwarded self payload /\ r = Request w payload.
Proof.
  intros Hp.
  assert (Hrun : do_POST w self = _handle_analyze_text w self)
    by (apply do_POST_text; exact Hp).
  destruct (declared_length self) as [e|n] eqn:Hn;
    [rewrite Hrun; unfold _handle_analyze_text, rfile_read;
     rewrite headers_content_length_eq; no_call|].
  destruct (stream_read (rfile self) n) as [e|raw] eqn:Hraw;
    [rewrite Hrun; unfold _handle_analyze_text, rfile_read;
     rewrite headers_content_length_eq; no_call|].
  destruct (utf8_decode raw) as [e|s] eqn:Hs;
    [rewrite Hrun; unfold _handle_analyze_text, rfile_read;
     rewrite headers_content_length_eq; no_call|].
  destruct (json_loads s) as [e|v] eqn:Hj;
    [rewrite Hrun; unfold _handle_analyze_text, rfile_read;
     rewrite headers_content_length_eq; no_call|].
  destruct v as [| | | | |l|d];
    try (rewrite Hrun; unfold _handle_analyze_text, rfile_read;
         rewrite headers_content_length_eq; no_call).
  destruct (dict_get d "food" (PyStr "")) as [| | | |f| |] eqn:Hf;
    try (rewrite Hrun; unfold _handle_analyze_text, rfile_read;
         rewrite headers_content_length_eq; no_call).
  destruct (str_strip f =? "")%string eqn:Hz;
    [rewrite Hrun; unfold _handle_analyze_text, rfile_read;
     rewrite headers_content_length_eq; no_call|].
  apply String.eqb_neq in Hz.
  assert (Hfw : forwarded self (text_payload (str_strip f))).
  { apply (forwarded_text self d f); try assumption.
    - unfold body_json. rewrite Hn, Hraw, Hs. exact Hj.
    - unfold dict_get in Hf. destruct (dict_lookup d "food") as [x|].
      + rewrite Hf. reflexivity.
      + injection Hf as <-. exfalso. apply Hz. apply str_strip_empty. }
  destruct (forwarded_outcome w self _ Hfw) as [-> _].
  intros [<-|[]]. eexists. split; [exact Hfw|reflexivity].
Qed.

Lemma image_call_is_validated r :
  path self = "/api/analyze-image" ->
  In r (upstream_calls (fst (do_POST w self))) ->
  exists payload, forwarded self payload /\ r = Request w payload.
Proof.
  intros Hp.
  assert (Hrun : do_POST w self = _handle_analyze_image w self)
    by (apply do_POST_image; exact Hp).
  destruct (declared_length self) as [e|n] eqn:Hn;
    [rewrite Hrun; unfold _handle_analyze_image, rfile_read;
     rewrite headers_content_length_eq; no_call|].
  destruct (MAX_BODY_SIZE <? n) eqn:Hgate;
    [rewrite Hrun; unfold _handle_analyze_image, rfile_read;
     rewrite headers_content_length_eq; no_call|].
  destruct (stream_read (rfile self) n) as [e|raw] eqn:Hraw;
    [rewrite Hrun; unfold _handle_analyze_image, rfile_read;
     rewrite headers_content_length_eq; no_call|].
  destruct (utf8_decode raw) as [e|s] eqn:Hs;
    [rewrite Hrun; unfold _handle_analyze_image, rfile_read;
     rewrite headers_content_length_eq; no_call|].
  destruct (json_loads s) as [e|v] eqn:Hj;
    [rewrite Hrun; unfold _handle_analyze_image, rfile_read;
     rewrite headers_content_length_eq; no_call|].
  destruct v as [| | | | |l|d];
    try (rewrite Hrun; unfold _handle_analyze_image, rfile_read;
         rewrite headers_content_length_eq; no_call).
  destruct (truthy (dict_get d "image" (PyStr ""))) eqn:Hi;
    [|rewrite Hrun; unfold _handle_analyze_image, rfile_read;
      rewrite headers_content_length_eq; no_call].
  destruct (dict_get d "media_type" (PyStr "")) as [|b|z|x|mt|l|d'] eqn:Hm;
    try (rewrite Hrun; unfold _handle_analyze_image, rfile_read;
         rewrite headers_content_length_eq; use_eqs;
         match goal with
         | |- context [truthy ?v] => destruct (truthy v)
         end; no_call).
  destruct (truthy (PyStr mt)) eqn:Ht;
    [|rewrite Hrun; unfold _handle_analyze_image, rfile_read;
      rewrite headers_content_length_eq; no_call].
  destruct (existsb (String.eqb mt) VALID_IMAGE_TYPES) eqn:Hk;
    [|rewrite Hrun; unfold _handle_analyze_image, rfile_read;
      rewrite headers_content_length_eq; no_call].
  assert (Hfw : forwarded self
                  (image_payload (dict_get d "image" (PyStr "")) (PyStr mt))).
  { apply (forwarded_image self n d _ mt); try assumption; try reflexivity.
    - apply Z.ltb_ge. exact Hgate.
    - unfold body_json. rewrite Hn, Hraw, Hs. exact Hj.
    - unfold dict_get in Hm. destruct (dict_lookup d "media_type") as [y|].
      + rewrite Hm. reflexivity.
      + injection Hm as <-. discriminate Ht.
    - apply existsb_exists in Hk. destruct Hk as (y & Hin & Heq).
      apply String.eqb_eq in Heq. subst y. exact Hin. }
  destruct (forwarded_outcome w self _ Hfw) as [-> _].
  intros [<-|[]]. eexists. split; [exact Hfw|reflexivity].
Qed.

(** X24.  Nothing reaches the upstream endpoint unvalidated: every
    request a POST sends upstream is the request for the payload of a body
    that passed the validation of its route (a non-blank string as [food];
    a declared length within the limit, a filled [image] and an allowed
    [media_type]). *)
Theorem X24_upstream_call_only_after_validation r :
  In r (upstream_calls (fst (do_POST w self))) ->
  exists payload, forwarded self payload /\ r = Request w payload.
Proof.
  destruct not_matched_or_matched as [H|[H|[H1 H2]]].
  - apply String.eqb_eq in H. apply text_call_is_validated. exact H.
  - apply String.eqb_eq in H. apply image_call_is_validated. exact H.
  - unfold do_POST. rewrite H1, H2. eval_run. cbn. tauto.
Qed.

(** Settle a claim about the [Error:] line on an evaluated run. *)
Ltac logged :=
  cbn [upstream_calls body_reads status_codes sent_headers written app fst snd];
  intros Hs Hw; try discriminate Hs;
  injection Hw as <-; cbn [In]; tauto.

(** X25.  Every 500 of a POST is logged: the message sent to the client
    in the [error] member is also printed on the console after
    [Error:]. *)
Theorem X25_every_500_is_logged msg :
  status_codes (fst (do_POST w self)) = [500] ->
  written (fst (do_POST w self)) = [error_body msg] ->
  In (EvPrint ("  Error: " ++ msg)) (fst (do_POST w self)).
Proof.
  unfold do_POST, error_body.
  destruct not_matched_or_matched as [H|[H|[H1 H2]]].
  - rewrite H.
    unfold _handle_analyze_text, rfile_read, call_anthropic.
    rewrite headers_content_length_eq.
    explore; logged.
  - destruct (path self =? "/api/analyze")%string eqn:H0.
    + unfold _handle_analyze_text, rfile_read, call_anthropic.
      rewrite headers_content_length_eq.
      explore; logged.
    + rewrite H.
      unfold _handle_analyze_image, rfile_read, call_anthropic_image.
      rewrite headers_content_length_eq.
      explore; logged.
  - rewrite H1, H2. eval_run. logged.
Qed.

End RouteProperties.

(** X26.  The answers to GET and OPTIONS do not depend on the request:
    whatever the path, the headers and the body of two requests, the
    status, the response headers and the response body are the same. *)
Theorem X26_get_and_options_ignore_the_request (w : world) (self self' : request) :
  let response (m : M unit) :=
    (snd m, status_codes (fst m), sent_headers (fst m), written (fst m)) in
  response (do_GET w self) = response (do_GET w self') /\
  response (do_OPTIONS self) = response (do_OPTIONS self').
Proof.
  cbv zeta. unfold do_GET, read_index_html.
  destruct (index_html w); split; reflexivity.
Qed.

(** ** Instances on the reference library *)



Lemma X1_witness :
  @module_init Ref.lib Edge.with_env_key_only =
  @module_init Ref.lib SampleHost.with_env_key.
Proof.
  apply (@X1_environment_key_hides_file Ref.lib SampleHost.with_env_key
           Edge.with_env_key_only ("sk-ant-abc" ++ nl)).
  - intros name. reflexivity.
  - reflexivity.
  - discriminate.
Defined.


Lemma X4_witness :
  "sk-ant-a=b" <> "" /\ "sk-ant-a=b" <> "paste-your-key-here" /\
  @load_api_key Ref.lib SampleHost.with_env_file = ([], inr "sk-ant-a=b") /\
  @PORT Ref.lib SampleHost.with_env_file = ([], inr 3001) /\
  fst (@module_init Ref.lib SampleHost.with_env_file) = [].
Proof.
  apply (@X4_serving_key_is_usable Ref.lib SampleHost.with_env_file 3001 "sk-ant-a=b").
  vm_compute. reflexivity.
Defined.

Lemma X5_witness :
  @module_init Ref.lib SampleHost.with_blank_env_key =
  (missing_key_messages, inr (SysExit 1)).
Proof.
  apply (@X5_blank_environment_key_exits Ref.lib SampleHost.with_blank_env_key
           "  " 3001).
  - reflexivity.
  - reflexivity.
  - discriminate.
  - vm_compute. reflexivity.
Defined.

Lemma X6_witness :
  @module_init Ref.lib SampleHost.without_key =
  (missing_key_messages, inr (SysExit 1)).
Proof.
  apply (@X6_no_key_exits Ref.lib SampleHost.without_key 8080).
  - vm_compute. reflexivity.
  - reflexivity.
  - right. exists ["# local settings" ++ nl; "PORT=8080" ++ nl].
    split; [reflexivity|].
    intros l [<-|[<-|[]]]; vm_compute; reflexivity.
Defined.







Lemma X17_witness :
  replies (@do_POST Ref.lib Sample.unreachable Edge.array_request)
    500 (error_body "'list' object has no attribute 'get'") /\
  upstream_calls (fst (@do_POST Ref.lib Sample.unreachable Edge.array_request)) = [].
Proof.
  apply (@X17_body_must_be_an_object Ref.lib Sample.unreachable Edge.array_request
           (PyList [PyInt 1])).
  - left. reflexivity.
  - vm_compute. reflexivity.
  - intros d. discriminate.
Defined.

Lemma X18_witness :
  replies (@do_POST Ref.lib Sample.unreachable Edge.numeric_type_request)
    400 (error_body "Unsupported image type: 7") /\
  upstream_calls (fst (@do_POST Ref.lib Sample.unreachable Edge.numeric_type_request)) = [].
Proof.
  apply (@X18_numeric_media_type_is_rejected Ref.lib Sample.unreachable
           Edge.numeric_type_request
           [("image", PyStr "aGVsbG8="); ("media_type", PyInt 7)] (PyInt 7)).
  - reflexivity.
  - intros n H. vm_compute in H. injection H as <-. unfold MAX_BODY_SIZE. lia.
  - vm_compute. reflexivity.
  - reflexivity.
  - reflexivity.
  - reflexivity.
  - cbn. tauto.
Defined.

Lemma X19_witness :
  (exists msg,
     replies (@do_POST Ref.lib Sample.unreachable Edge.list_type_request)
       500 (error_body msg)) /\
  upstream_calls (fst (@do_POST Ref.lib Sample.unreachable Edge.list_type_request)) = [].
Proof.
  apply (@X19_unhashable_media_type_is_500 Ref.lib Sample.unreachable
           Edge.list_type_request
           [("image", PyStr "aGVsbG8="); ("media_type", PyList [PyStr "image/png"])]
           (PyList [PyStr "image/png"])).
  - reflexivity.
  - intros n H. vm_compute in H. injection H as <-. unfold MAX_BODY_SIZE. lia.
  - vm_compute. reflexivity.
  - reflexivity.
  - reflexivity.
  - reflexivity.
  - left. reflexivity.
Defined.

Lemma X20_witness :
  replies (@do_POST Ref.lib Sample.unreachable (Sample.announce "/api/analyze" "abc"))
    500 (error_body "invalid literal for int() with base 10: 'abc'") /\
  body_reads (fst (@do_POST Ref.lib Sample.unreachable
                     (Sample.announce "/api/analyze" "abc"))) = [] /\
  upstream_calls (fst (@do_POST Ref.lib Sample.unreachable
                         (Sample.announce "/api/analyze" "abc"))) = [].
Proof.
  apply (@X20_bad_content_length_is_500_unread Ref.lib Sample.unreachable
           (Sample.announce "/api/analyze" "abc")
           (ValueError "invalid literal for int() with base 10: 'abc'")).
  - left. reflexivity.
  - vm_compute. reflexivity.
Defined.

Lemma X21_witness :
  body_reads (fst (@do_POST Ref.lib Sample.unreachable Sample.apple_request)) = [19].
Proof.
  apply (@X21_text_route_reads_declared_length Ref.lib Sample.unreachable
           Sample.apple_request 19).
  - reflexivity.
  - vm_compute. reflexivity.
Defined.


Lemma X23_witness :
  body_reads (fst (@do_POST Ref.lib Sample.unreachable Edge.headless_request)) = [0].
Proof.
  apply (@X23_missing_content_length_reads_nothing Ref.lib).
  - left. reflexivity.
  - reflexivity.
Defined.

Lemma X24_witness :
  exists payload,
    @forwarded Ref.lib Sample.apple_request payload /\
    Request Sample.unreachable (text_payload "apple") =
      Request Sample.unreachable payload.
Proof.
  apply (@X24_upstream_call_only_after_validation Ref.lib Sample.unreachable
           Sample.apple_request).
  vm_compute. left. reflexivity.
Defined.

Lemma X25_witness :
  In (EvPrint "  Error: <urlopen error [Errno 111] Connection refused>")
     (fst (@do_POST Ref.lib Sample.unreachable Sample.apple_request)).
Proof.
  apply (@X25_every_500_is_logged Ref.lib Sample.unreachable Sample.apple_request
           "<urlopen error [Errno 111] Connection refused>").
  - vm_compute. reflexivity.
  - vm_compute. reflexivity.
Defined.
